(** * The GKE cluster reconciler (compute/gke.go)

    The reconciler of [src/compute/gke.go] is translated function by function.
    A Go [error] is an [option Err] ([None] is [nil]); the record pointed to by
    [instance] is threaded through explicitly; every call that leaves the
    process (the Kubernetes API, the GKE client, the secret store) is answered
    by an environment [Env] and written, with its answer, to a chronological
    log, so that "this operation was (not) invoked" is a statement about the
    log.  The packages the reconciler imports from its own repository
    (conditions, finalizers, error classes, secret keys) are not part of the
    sources at hand; each definition that stands for them says so. *)

From Stdlib Require Import ZArith.
From stdpp Require Import base gmap strings list.

Open Scope string_scope.
Open Scope list_scope.
Open Scope nat_scope.

(** ** Go errors *)

(** Modelled from the spec: the error classification of the missing package
    [pkg/clients/gcp] ("errors classified as NotFound | AlreadyExists |
    BadRequest | Other").  [Error] is Go's [err.Error()]. *)
Inductive ErrKind := NotFound | AlreadyExists | BadRequest | Other.

Record Err := mkErr { Kind : ErrKind; Error : string }.

Abbreviation error := (option Err).

Module gcp.
Definition IsAlreadyExists (e : Err) : bool :=
  match Kind e with AlreadyExists => true | _ => false end.
Definition IsBadRequest (e : Err) : bool :=
  match Kind e with BadRequest => true | _ => false end.
End gcp.

(** [errors.IsNotFound] of [k8s.io/apimachinery/pkg/api/errors], on the same
    classification. *)
Module errors.
Definition IsNotFound (e : Err) : bool :=
  match Kind e with NotFound => true | _ => false end.
End errors.

(** ** controller-runtime's reconcile.Result *)

Module reconcile.
(** The library's struct [Result{Requeue bool; RequeueAfter time.Duration}].
    [RequeueAfter] is a count of nanoseconds; zero, the value the composite
    literals of the source leave it at, means that no delay is asked for. *)
Record Result := mkResult { Requeue : bool; RequeueAfter : Z }.
End reconcile.

(** ** Conditions, reclaim policy and secret keys (core/v1alpha1) *)

Module corev1alpha1.

(** Modelled from the spec: the condition categories {Creating, Ready,
    Failed} of the missing package [pkg/apis/core/v1alpha1]. *)
Inductive ConditionType := Creating | Ready | Failed.

Global Instance ConditionType_eq_dec : EqDecision ConditionType.
Proof. solve_decision. Defined.

(** Modelled from the spec: a condition record "(type, status, reason,
    message)"; [CStatus] is true while the condition is set. *)
Record Condition := mkCondition {
  CType : ConditionType;
  CStatus : bool;
  Reason : string;
  Message : string
}.

(** The conditions are a small ordered sequence in the source. *)
Abbreviation ConditionedStatus := (list Condition).

(** Modelled from the spec: [SetCondition] of the missing package, "replacing
    any prior condition of the same type". *)
Definition SetCondition (c : Condition) (s : ConditionedStatus) : ConditionedStatus :=
  filter (fun x => CType x ≠ CType c) s ++ [c].

(** Modelled from the spec: [UnsetAllConditions] of the missing package
    unsets every condition of the record: each one stays listed with its
    status turned off. *)
Definition UnsetAllConditions (s : ConditionedStatus) : ConditionedStatus :=
  map (fun x => mkCondition (CType x) false (Reason x) (Message x)) s.

(** Modelled from the spec: the three setters of the missing package; each is
    [SetCondition] with a set condition of its type ([SetFailed] carries the
    reason and the message). *)
Definition SetFailed (reason msg : string) (s : ConditionedStatus) : ConditionedStatus :=
  SetCondition (mkCondition Failed true reason msg) s.

Definition SetCreating (s : ConditionedStatus) : ConditionedStatus :=
  SetCondition (mkCondition Creating true "" "") s.

Definition SetReady (s : ConditionedStatus) : ConditionedStatus :=
  SetCondition (mkCondition Ready true "" "") s.

(** A condition category is present (active) when a condition of that type
    is listed with its status on. *)
Definition IsActive (t : ConditionType) (s : ConditionedStatus) : bool :=
  existsb (fun x => bool_decide (CType x = t) && CStatus x) s.

(** The categories that are active, in the fixed order Creating, Ready,
    Failed. *)
Definition ActiveTypes (s : ConditionedStatus) : list ConditionType :=
  filter (fun t => IsActive t s = true) [Creating; Ready; Failed].

(** At most one of Creating, Ready, Failed is active. *)
Definition AtMostOneActive (s : ConditionedStatus) : bool :=
  bool_decide (List.length (ActiveTypes s) ≤ 1).

(** Modelled from the spec: the reclaim policy ("reclaim policy ∈ {Delete,
    Retain}"), a string type in Go; the delete branch compares it with
    [ReclaimDelete] only. *)
Definition ReclaimDelete : string := "Delete".
Definition ReclaimRetain : string := "Retain".

(** Modelled from the spec: the six keys of the connection secret, constants
    of the missing package ("endpoint, username, password, ca-certificate,
    client-certificate, client-key"). *)
Definition ResourceCredentialsSecretEndpointKey : string := "endpoint".
Definition ResourceCredentialsSecretUserKey : string := "username".
Definition ResourceCredentialsSecretPasswordKey : string := "password".
Definition ResourceCredentialsSecretCAKey : string := "ca-certificate".
Definition ResourceCredentialsSecretClientCertKey : string := "client-certificate".
Definition ResourceCredentialsSecretClientKeyKey : string := "client-key".

End corev1alpha1.

(** ** Finalizers (pkg/util) *)

Module util.
(** Modelled from the spec: the finalizer helpers of the missing package
    [pkg/util], "set semantics - no duplicates, removal of absent token is a
    no-op". *)
Definition HasFinalizer (fs : gset string) (f : string) : bool :=
  bool_decide (f ∈ fs).
Definition AddFinalizer (fs : gset string) (f : string) : gset string :=
  {[ f ]} ∪ fs.
Definition RemoveFinalizer (fs : gset string) (f : string) : gset string :=
  fs ∖ {[ f ]}.
End util.

(** ** The Google container API's cluster *)

Module container.
Record MasterAuth := mkMasterAuth {
  Username : string;
  Password : string;
  ClusterCaCertificate : string;
  ClientCertificate : string;
  ClientKey : string
}.
Record Cluster := mkCluster {
  Status : string;
  Endpoint : string;
  MasterAuth_ : MasterAuth
}.
End container.

(** ** The GKECluster record (gcp/compute/v1alpha1) *)

(** The fields of the record that the reconciler reads or writes. *)
Record GKEClusterSpec := mkSpec {
  Zone : string;
  ProviderRef : string;
  ReclaimPolicy : string
}.

Record GKEClusterStatus := mkStatus {
  Conditions : corev1alpha1.ConditionedStatus;
  ClusterName : string
}.

Record GKECluster := mkGKECluster {
  Namespace : string;
  Name : string;
  UID : string;
  DeletionTimestamp : option Z;
  Finalizers : gset string;
  Spec : GKEClusterSpec;
  Status : GKEClusterStatus
}.

(** Modelled from the spec: the external state in which the cluster is
    usable, a constant of the missing package [gcp/compute/v1alpha1]. *)
Definition ClusterStateRunning : string := "RUNNING".

(** In-place mutations of the record the source performs. *)
Definition withConditions (f : corev1alpha1.ConditionedStatus -> corev1alpha1.ConditionedStatus)
    (i : GKECluster) : GKECluster :=
  mkGKECluster (Namespace i) (Name i) (UID i) (DeletionTimestamp i) (Finalizers i) (Spec i)
    (mkStatus (f (Conditions (Status i))) (ClusterName (Status i))).

Definition withClusterName (n : string) (i : GKECluster) : GKECluster :=
  mkGKECluster (Namespace i) (Name i) (UID i) (DeletionTimestamp i) (Finalizers i) (Spec i)
    (mkStatus (Conditions (Status i)) n).

Definition withFinalizers (f : gset string -> gset string) (i : GKECluster) : GKECluster :=
  mkGKECluster (Namespace i) (Name i) (UID i) (DeletionTimestamp i) (f (Finalizers i)) (Spec i)
    (Status i).

(** ** The connection secret *)

Abbreviation bytes := (list Byte.byte).

Record Secret := mkSecret {
  SecretNamespace : string;
  SecretName : string;
  SecretOwner : string;
  Data : gmap string bytes
}.

(** Modelled from the spec: [instance.ConnectionSecret()] of the missing
    package yields an empty secret "keyed to the owning record". *)
Definition ConnectionSecret (i : GKECluster) : Secret :=
  mkSecret (Namespace i) (Name i) (UID i) ∅.

(** ** The provider and the GKE client *)

(** A provider, with the answer of its [IsValid()], and the credentials read
    from it. *)
Record Provider := mkProvider { IsValid : bool; ProviderSecret : string }.

Record Credentials := mkCredentials { ProjectID : string }.

(** [gke.Client]: the three operations on the external resource. *)
Module gke.
Record Client := mkClient {
  CreateCluster : string -> GKEClusterSpec -> error;
  GetCluster : string -> string -> Err + container.Cluster;
  DeleteCluster : string -> string -> error
}.
End gke.

(** ** The world outside the reconciler *)

(** The answers of everything the reconciler calls.  [kube_Update n i] answers
    the [n]-th [Update] of one invocation (counted from zero). *)
Record Env := mkEnv {
  kube_Get : string -> string -> Err + GKECluster;
  kube_GetProvider : string -> string -> Err + Provider;
  kube_Update : nat -> GKECluster -> error;
  ProviderCredentials : Provider -> Err + Credentials;
  NewClusterClient : Credentials -> Err + gke.Client;
  ApplySecret : Secret -> error
}.

(** One entry of the log: a call that left the process, with its arguments
    and the answer it got. *)
Inductive Event :=
| EvGet (ns name : string)
| EvGetProvider (ns name : string)
| EvUpdate (i : GKECluster) (a : error)
| EvCreateCluster (name : string) (spec : GKEClusterSpec) (a : error)
| EvGetCluster (zone name : string) (a : Err + container.Cluster)
| EvDeleteCluster (zone name : string) (a : error)
| EvApplySecret (s : Secret) (a : error).

Abbreviation Log := (list Event).

Definition isUpdate (e : Event) : bool :=
  match e with EvUpdate _ _ => true | _ => false end.
Definition isCreateCluster (e : Event) : bool :=
  match e with EvCreateCluster _ _ _ => true | _ => false end.
Definition isGetCluster (e : Event) : bool :=
  match e with EvGetCluster _ _ _ => true | _ => false end.
Definition isDeleteCluster (e : Event) : bool :=
  match e with EvDeleteCluster _ _ _ => true | _ => false end.
Definition isApplySecret (e : Event) : bool :=
  match e with EvApplySecret _ _ => true | _ => false end.

Definition countUpdates (l : Log) : nat := List.length (List.filter isUpdate l).

(** The record as the API server holds it after the log: the argument of the
    last [Update] that succeeded, or the record as fetched. *)
Fixpoint persisted (fetched : GKECluster) (l : Log) : GKECluster :=
  match l with
  | [] => fetched
  | EvUpdate i None :: l' => persisted i l'
  | _ :: l' => persisted fetched l'
  end.

(** ** A state monad over the log *)

Definition M (A : Type) : Type := Log -> A * Log.

#[global] Instance M_ret : MRet M := fun A (a : A) (l : Log) => (a, l).
#[global] Instance M_bind : MBind M :=
  fun A B (k : A -> M B) (m : M A) (l : Log) => let '(a, l') := m l in k a l'.

Definition emit (e : Event) : M unit := fun l => (tt, l ++ [e]).

(** ** The reconciler (compute/gke.go) *)

Definition controllerName : string := "gke.compute.gcp.conductor.io".
Definition finalizer : string := String.append "finalizer." controllerName.
Definition clusterNamePrefix : string := "gke-".

Definition errorClusterClient : string := "Failed to create cluster client".
Definition errorCreatingCluster : string := "Failed to create new cluster".
Definition errorUpdatingCluster : string := "Failed to update cluster".
Definition errorDeletingCluster : string := "Failed to delete cluster".
Definition errorClusterConnectionSecret : string :=
  "Failed to create/update cluster connection secret".

Definition result : reconcile.Result := reconcile.mkResult false 0.
Definition resultRequeue : reconcile.Result := reconcile.mkResult true 0.

(** What a branch hands back: the record as the branch left it in memory, the
    result and the error. *)
Abbreviation Outcome := (GKECluster * reconcile.Result * error)%type.

(** The sub-steps are function fields of the reconciler, so that tests can
    replace them. *)
Record Reconciler := mkReconciler {
  env : Env;
  connect : GKECluster -> M (Err + gke.Client);
  create : GKECluster -> gke.Client -> M Outcome;
  sync : GKECluster -> gke.Client -> M Outcome;
  delete : GKECluster -> gke.Client -> M Outcome
}.

(** [r.Update(ctx, instance)] *)
Definition Update (e : Env) (instance : GKECluster) : M error :=
  fun l =>
    let err := kube_Update e (countUpdates l) instance in
    (err, l ++ [EvUpdate instance err]).

(** The calls on the client, each written to the log with its answer. *)
Definition CreateCluster (client : gke.Client) (name : string) (spec : GKEClusterSpec) : M error :=
  let a := gke.CreateCluster client name spec in
  emit (EvCreateCluster name spec a);; mret a.

Definition GetCluster (client : gke.Client) (zone name : string) : M (Err + container.Cluster) :=
  let a := gke.GetCluster client zone name in
  emit (EvGetCluster zone name a);; mret a.

Definition DeleteCluster (client : gke.Client) (zone name : string) : M error :=
  let a := gke.DeleteCluster client zone name in
  emit (EvDeleteCluster zone name a);; mret a.

(** [util.ApplySecret(r.kubeclient, secret)] *)
Definition applySecret (e : Env) (secret : Secret) : M error :=
  let a := ApplySecret e secret in
  emit (EvApplySecret secret a);; mret a.

(** fail - helper function to set fail condition with reason and message *)
Definition fail (e : Env) (instance : GKECluster) (reason msg : string) : M Outcome :=
  let instance := withConditions corev1alpha1.UnsetAllConditions instance in
  let instance := withConditions (corev1alpha1.SetFailed reason msg) instance in
  err ← Update e instance;
  mret (instance, resultRequeue, err).

(** [[]byte(s)] *)
Definition bytesOf (s : string) : bytes := String.list_byte_of_string s.

(** connectionSecret return secret object for cluster instance *)
Definition connectionSecret (instance : GKECluster) (cluster : container.Cluster) : Secret :=
  let secret := ConnectionSecret instance in
  let auth := container.MasterAuth_ cluster in
  let data : gmap string bytes := ∅ in
  let data := <[corev1alpha1.ResourceCredentialsSecretEndpointKey :=
                  bytesOf (container.Endpoint cluster)]> data in
  let data := <[corev1alpha1.ResourceCredentialsSecretUserKey :=
                  bytesOf (container.Username auth)]> data in
  let data := <[corev1alpha1.ResourceCredentialsSecretPasswordKey :=
                  bytesOf (container.Password auth)]> data in
  let data := <[corev1alpha1.ResourceCredentialsSecretCAKey :=
                  bytesOf (container.ClusterCaCertificate auth)]> data in
  let data := <[corev1alpha1.ResourceCredentialsSecretClientCertKey :=
                  bytesOf (container.ClientCertificate auth)]> data in
  let data := <[corev1alpha1.ResourceCredentialsSecretClientKeyKey :=
                  bytesOf (container.ClientKey auth)]> data in
  mkSecret (SecretNamespace secret) (SecretName secret) (SecretOwner secret) data.

(** _connect fetches the provider named by the record, checks that it is
    valid, reads its credentials and builds the cluster client; any of the
    four can fail. *)
Definition _connect (e : Env) (instance : GKECluster) : M (Err + gke.Client) :=
  let ns := Namespace instance in
  let name := ProviderRef (Spec instance) in
  emit (EvGetProvider ns name);;
  match kube_GetProvider e ns name with
  | inl err => mret (inl err)
  | inr p =>
      if negb (IsValid p) then mret (inl (mkErr Other "provider status is invalid"))
      else
        match ProviderCredentials e p with
        | inl err => mret (inl err)
        | inr creds => mret (NewClusterClient e creds)
        end
  end.

(** _create asks for the cluster under the name derived from the record's UID.
    [created] is the code after the error test, reached on success and on
    AlreadyExists. *)
Definition _create (e : Env) (instance : GKECluster) (client : gke.Client) : M Outcome :=
  let clusterName := String.append clusterNamePrefix (UID instance) in
  let created : M Outcome :=
    let instance := withConditions corev1alpha1.UnsetAllConditions instance in
    let instance := withConditions corev1alpha1.SetCreating instance in
    let instance := withClusterName clusterName instance in
    uerr ← Update e instance;
    mret (instance, resultRequeue, uerr) in
  err ← CreateCluster client clusterName (Spec instance);
  match err with
  | Some err =>
      if negb (gcp.IsAlreadyExists err) then
        if gcp.IsBadRequest err then
          let instance :=
            withConditions (corev1alpha1.SetFailed errorCreatingCluster (Error err)) instance in
          (* do not requeue on bad requests *)
          uerr ← Update e instance;
          mret (instance, result, uerr)
        else fail e instance errorCreatingCluster (Error err)
      else created
  | None => created
  end.

(** _sync reads the cluster by the recorded external name and, once it is
    running, publishes the connection secret and sets Ready. *)
Definition _sync (e : Env) (instance : GKECluster) (client : gke.Client) : M Outcome :=
  got ← GetCluster client (Zone (Spec instance)) (ClusterName (Status instance));
  match got with
  | inl err => fail e instance errorUpdatingCluster (Error err)
  | inr cluster =>
      if bool_decide (container.Status cluster ≠ ClusterStateRunning) then
        mret (instance, resultRequeue, None)
      else
        (* create connection secret *)
        aerr ← applySecret e (connectionSecret instance cluster);
        match aerr with
        | Some err => fail e instance errorClusterConnectionSecret (Error err)
        | None =>
            let instance := withConditions corev1alpha1.UnsetAllConditions instance in
            let instance := withConditions corev1alpha1.SetReady instance in
            uerr ← Update e instance;
            mret (instance, result, uerr)
        end
  end.

(** _delete check reclaim policy and if needed delete the gke cluster resource.
    [release] is the code after the policy test. *)
Definition _delete (e : Env) (instance : GKECluster) (client : gke.Client) : M Outcome :=
  let release : M Outcome :=
    let instance := withFinalizers (fun fs => util.RemoveFinalizer fs finalizer) instance in
    let instance := withConditions corev1alpha1.UnsetAllConditions instance in
    uerr ← Update e instance;
    mret (instance, result, uerr) in
  if bool_decide (ReclaimPolicy (Spec instance) = corev1alpha1.ReclaimDelete) then
    derr ← DeleteCluster client (Zone (Spec instance)) (ClusterName (Status instance));
    match derr with
    | Some err => fail e instance errorDeletingCluster (Error err)
    | None => release
    end
  else release.

(** newReconciler returns a new reconcile.Reconciler *)
Definition newReconciler (e : Env) : Reconciler :=
  mkReconciler e (_connect e) (_create e) (_sync e) (_delete e).

(** The part of [Reconcile] that runs once the record is fetched. *)
Definition reconcileInstance (r : Reconciler) (instance : GKECluster) : M Outcome :=
  (* Create GKE Client *)
  c ← connect r instance;
  match c with
  | inl err => fail (env r) instance errorClusterClient (Error err)
  | inr client =>
      (* Check for deletion *)
      if bool_decide (DeletionTimestamp instance ≠ None) then delete r instance client
      else
        let rest (instance : GKECluster) : M Outcome :=
          (* Create cluster instance *)
          if bool_decide (ClusterName (Status instance) = "") then create r instance client
          (* Sync cluster instance status with cluster status *)
          else sync r instance client in
        (* Add finalizer *)
        if negb (util.HasFinalizer (Finalizers instance) finalizer) then
          let instance := withFinalizers (fun fs => util.AddFinalizer fs finalizer) instance in
          uerr ← Update (env r) instance;
          match uerr with
          | Some err => mret (instance, resultRequeue, Some err)
          | None => rest instance
          end
        else rest instance
  end.

(** Reconcile reads that state of the cluster for a Provider object and makes
    changes based on the state read and what is in the Provider.Spec.  The
    request is the record's namespace and name; no record comes back when the
    fetch fails. *)
Definition Reconcile (r : Reconciler) (request : string * string)
    : M (option GKECluster * reconcile.Result * error) :=
  emit (EvGet request.1 request.2);;
  match kube_Get (env r) request.1 request.2 with
  | inl err =>
      if errors.IsNotFound err then mret (None, reconcile.mkResult false 0, None)
      else mret (None, reconcile.mkResult false 0, Some err)
  | inr instance =>
      o ← reconcileInstance r instance;
      mret (Some o.1.1, o.1.2, o.2)
  end.

(** * Vocabulary of the properties *)

(** ** Conditions *)

(** Exactly the category [t] is active. *)
Definition OnlyActive (t : corev1alpha1.ConditionType) (s : corev1alpha1.ConditionedStatus) : Prop :=
  ∀ t', corev1alpha1.IsActive t' s = bool_decide (t' = t).

(** No category is active. *)
Definition NoneActive (s : corev1alpha1.ConditionedStatus) : Prop :=
  ∀ t, corev1alpha1.IsActive t s = false.

(** The record lists a set condition of type [t] with this reason and
    message. *)
Definition Explains (t : corev1alpha1.ConditionType) (reason msg : string)
    (s : corev1alpha1.ConditionedStatus) : Prop :=
  corev1alpha1.mkCondition t true reason msg ∈ s.

(** An active Failed condition that reports a failed creation. *)
Definition surfacesCreateError (s : corev1alpha1.ConditionedStatus) : bool :=
  existsb (fun c => bool_decide (corev1alpha1.CType c = corev1alpha1.Failed)
                    && corev1alpha1.CStatus c
                    && bool_decide (corev1alpha1.Reason c = errorCreatingCluster)) s.

(** ** Reading an outcome *)

Definition inst (out : Outcome * Log) : GKECluster := out.1.1.1.
Definition res (out : Outcome * Log) : reconcile.Result := out.1.1.2.
Definition err (out : Outcome * Log) : error := out.1.2.
Definition log (out : Outcome * Log) : Log := out.2.

Definition conds (i : GKECluster) : corev1alpha1.ConditionedStatus := Conditions (Status i).

(** The external name the create branch derives from the record's identity. *)
Definition clusterNameOf (i : GKECluster) : string := String.append clusterNamePrefix (UID i).

(** What the connect step answers, whatever the log was. *)
Definition connected (e : Env) (i : GKECluster) : Err + gke.Client := (_connect e i []).1.

Definition countCreates (l : Log) : nat := List.length (List.filter isCreateCluster l).
Definition countDeletes (l : Log) : nat := List.length (List.filter isDeleteCluster l).
Definition countGets (l : Log) : nat := List.length (List.filter isGetCluster l).

(** A retry after a delay is a result whose [RequeueAfter] is positive;
    [Requeue] alone asks for the request to be queued again at once (under the
    queue's rate limiter). *)
Definition requeueAfterDelay (r : reconcile.Result) : bool := (0 <? reconcile.RequeueAfter r)%Z.

(** The two records agree on everything reconcile never writes. *)
Definition sameIdentity (a b : GKECluster) : Prop :=
  Namespace a = Namespace b ∧ Name a = Name b ∧ UID a = UID b ∧
  DeletionTimestamp a = DeletionTimestamp b ∧ Spec a = Spec b.

(** ** The records the return paths build

    Names for the proofs; the lemmas [fail_eq], [create_eq], [sync_eq],
    [delete_eq] and [reconcile_eq] show that the code builds exactly these. *)

(** [fail]: every condition unset, then Failed set. *)
Definition failedRecord (reason msg : string) (i : GKECluster) : GKECluster :=
  withConditions (corev1alpha1.SetFailed reason msg)
    (withConditions corev1alpha1.UnsetAllConditions i).

(** The bad-request path of [_create]: Failed set on the conditions as they
    are. *)
Definition badRequestRecord (x : Err) (i : GKECluster) : GKECluster :=
  withConditions (corev1alpha1.SetFailed errorCreatingCluster (Error x)) i.

(** The end of [_create]. *)
Definition createdRecord (i : GKECluster) : GKECluster :=
  withClusterName (clusterNameOf i)
    (withConditions corev1alpha1.SetCreating
       (withConditions corev1alpha1.UnsetAllConditions i)).

(** The end of [_sync]. *)
Definition readyRecord (i : GKECluster) : GKECluster :=
  withConditions corev1alpha1.SetReady (withConditions corev1alpha1.UnsetAllConditions i).

(** The end of [_delete]. *)
Definition releasedRecord (i : GKECluster) : GKECluster :=
  withConditions corev1alpha1.UnsetAllConditions
    (withFinalizers (fun fs => util.RemoveFinalizer fs finalizer) i).

(** The finalizer step of [Reconcile]. *)
Definition finalizedRecord (i : GKECluster) : GKECluster :=
  withFinalizers (fun fs => util.AddFinalizer fs finalizer) i.

(** The branch reconcile enters for a record without deletion request: create
    when there is no external name yet, sync otherwise. *)
Definition liveBranch (e : Env) (k : GKECluster) (client : gke.Client) (l : Log) : Outcome * Log :=
  if bool_decide (ClusterName (Status k) = "") then _create e k client l
  else _sync e k client l.

(** The common end of the return paths: submit [k] in an Update and hand
    back [k], the result [r] and that Update's error. *)
Definition finish (e : Env) (l : Log) (k : GKECluster) (r : reconcile.Result) : Outcome * Log :=
  let a := kube_Update e (countUpdates l) k in
  (k, r, a, l ++ [EvUpdate k a]).

(** ** Statements about one invocation *)

(** The six keys of the connection secret. *)
Definition connectionSecretKeys : gset string :=
  {[ "endpoint"; "username"; "password"; "ca-certificate"; "client-certificate"; "client-key" ]}.

(** What justifies a call on the external resource for the fetched record
    [i]: a get carries the record's zone and its non-empty external name; a
    delete carries the record's zone and its external name as recorded, for a
    record whose deletion is requested with reclaim policy Delete; a create
    carries the name derived from the record's identity, for a record that has
    no external name yet. *)
Definition CallJustified (i : GKECluster) (ev : Event) : Prop :=
  match ev with
  | EvGetCluster z n _ =>
      n = ClusterName (Status i) ∧ n ≠ "" ∧ z = Zone (Spec i) ∧ DeletionTimestamp i = None
  | EvDeleteCluster z n _ =>
      n = ClusterName (Status i) ∧ z = Zone (Spec i) ∧ DeletionTimestamp i ≠ None ∧
      ReclaimPolicy (Spec i) = corev1alpha1.ReclaimDelete
  | EvCreateCluster n s _ =>
      n = clusterNameOf i ∧ s = Spec i ∧ ClusterName (Status i) = "" ∧
      DeletionTimestamp i = None
  | _ => True
  end.





(** ** Sample worlds *)

Definition sampleAuth : container.MasterAuth :=
  container.mkMasterAuth "admin" "hunter2" "ca-pem" "cert-pem" "key-pem".

Definition sampleCluster (state : string) : container.Cluster :=
  container.mkCluster state "10.0.0.1" sampleAuth.

Definition sampleRecord (deletion : option Z) (fs : gset string) (policy : string)
    (cs : corev1alpha1.ConditionedStatus) (externalName : string) : GKECluster :=
  mkGKECluster "default" "demo" "uid-1" deletion fs
    (mkSpec "us-central1-a" "gcp-provider" policy) (mkStatus cs externalName).

Definition sampleClient (c : error) (g : Err + container.Cluster) (d : error) : gke.Client :=
  gke.mkClient (fun _ _ => c) (fun _ _ => g) (fun _ _ => d).

(** A world that hands out [fetched], a valid provider, the given answer of
    the client factory, and the given answers of [Update] and [ApplySecret]. *)
Definition sampleEnv (fetched : GKECluster) (client : Err + gke.Client)
    (upd : nat -> error) (apply : error) : Env :=
  mkEnv (fun _ _ => inr fetched) (fun _ _ => inr (mkProvider true "gcp-creds"))
    (fun n _ => upd n) (fun _ => inr (mkCredentials "project")) (fun _ => client)
    (fun _ => apply).

Definition sampleRequest : string * string := ("default", "demo").

Definition ready : corev1alpha1.Condition :=
  corev1alpha1.mkCondition corev1alpha1.Ready true "" "".
Definition creating : corev1alpha1.Condition :=
  corev1alpha1.mkCondition corev1alpha1.Creating true "" "".

Definition errNotFound : Err := mkErr NotFound "cluster not found".
Definition errBadRequest : Err := mkErr BadRequest "invalid machine type".
Definition errOther : Err := mkErr Other "connection reset".

(** A record whose deletion is requested, with the engine's finalizer. *)
Definition deletingRecord (policy externalName : string) : GKECluster :=
  sampleRecord (Some 1%Z) {[ finalizer ]} policy [ready] externalName.

(** A record whose deletion is requested before any create succeeded. *)
Definition neverCreated : GKECluster := deletingRecord corev1alpha1.ReclaimDelete "".

(** A record in Creating, waiting for its cluster. *)
Definition creatingRecord : GKECluster :=
  sampleRecord None {[ finalizer ]} corev1alpha1.ReclaimDelete [creating] "gke-uid-1".


(** A record as the claim-binding collaborator creates it: empty status, no
    finalizer. *)
Definition freshRecord : GKECluster :=
  sampleRecord None ∅ corev1alpha1.ReclaimDelete [] "".

(** The external resource is already gone: get and delete answer NotFound. *)
Definition goneClient : gke.Client :=
  sampleClient None (inl errNotFound) (Some errNotFound).

Definition goneEnv (fetched : GKECluster) : Env :=
  sampleEnv fetched (inr goneClient) (fun _ => None) None.

(** Every external operation succeeds and the cluster is in [state]. *)
Definition okClient (state : string) : gke.Client :=
  sampleClient None (inr (sampleCluster state)) None.

Definition okEnv (fetched : GKECluster) (state : string) : Env :=
  sampleEnv fetched (inr (okClient state)) (fun _ => None) None.

(** The client factory fails. *)
Definition offlineEnv (fetched : GKECluster) : Env :=
  sampleEnv fetched (inl errOther) (fun _ => None) None.

(** The external create answers [x]. *)
Definition createClient (x : Err) : gke.Client :=
  sampleClient (Some x) (inl errNotFound) None.


(** Every Update is refused. *)
Definition readOnlyEnv (fetched : GKECluster) : Env :=
  sampleEnv fetched (inr (okClient "RUNNING")) (fun _ => Some errOther) None.


(** ** Tactics *)

Ltac unfold_M := unfold emit, mbind, M_bind, mret, M_ret; cbv zeta.

Ltac in_list H :=
  repeat (apply elem_of_cons in H as [H|H]; [try discriminate H; simplify_eq|]);
  try (apply elem_of_nil in H; destruct H).

Ltac decided :=
  repeat match goal with
  | H : bool_decide _ = true |- _ => apply bool_decide_eq_true_1 in H
  | H : bool_decide _ = false |- _ => apply bool_decide_eq_false_1 in H
  | H : negb _ = true |- _ => apply negb_true_iff in H
  | H : negb _ = false |- _ => apply negb_false_iff in H
  end.

(** ** The paths of one invocation

    The return paths of [_create] and [_sync] ([BranchPath]) and of the part
    of [Reconcile] that follows the fetch ([Path]), each with the answers that
    select it and the outcome it builds.  Lemmas [liveBranch_paths] and
    [reconcile_paths] show that the code always takes one of them. *)

Definition countApplies (l : Log) : nat := List.length (List.filter isApplySecret l).

Inductive BranchPath (e : Env) (k : GKECluster) (client : gke.Client) (l : Log)
  : Outcome * Log -> Prop :=
| BCreated (a : error) :
    ClusterName (Status k) = "" ->
    gke.CreateCluster client (clusterNameOf k) (Spec k) = a ->
    match a with None => True | Some x => gcp.IsAlreadyExists x = true end ->
    BranchPath e k client l
      (finish e (l ++ [EvCreateCluster (clusterNameOf k) (Spec k) a]) (createdRecord k)
         resultRequeue)
| BBadRequest (x : Err) :
    ClusterName (Status k) = "" ->
    gke.CreateCluster client (clusterNameOf k) (Spec k) = Some x ->
    gcp.IsAlreadyExists x = false ->
    gcp.IsBadRequest x = true ->
    BranchPath e k client l
      (finish e (l ++ [EvCreateCluster (clusterNameOf k) (Spec k) (Some x)])
         (badRequestRecord x k) result)
| BCreateFailed (x : Err) :
    ClusterName (Status k) = "" ->
    gke.CreateCluster client (clusterNameOf k) (Spec k) = Some x ->
    gcp.IsAlreadyExists x = false ->
    gcp.IsBadRequest x = false ->
    BranchPath e k client l
      (finish e (l ++ [EvCreateCluster (clusterNameOf k) (Spec k) (Some x)])
         (failedRecord errorCreatingCluster (Error x) k) resultRequeue)
| BGetFailed (x : Err) :
    ClusterName (Status k) ≠ "" ->
    gke.GetCluster client (Zone (Spec k)) (ClusterName (Status k)) = inl x ->
    BranchPath e k client l
      (finish e (l ++ [EvGetCluster (Zone (Spec k)) (ClusterName (Status k)) (inl x)])
         (failedRecord errorUpdatingCluster (Error x) k) resultRequeue)
| BNotRunning (cluster : container.Cluster) :
    ClusterName (Status k) ≠ "" ->
    gke.GetCluster client (Zone (Spec k)) (ClusterName (Status k)) = inr cluster ->
    container.Status cluster ≠ ClusterStateRunning ->
    BranchPath e k client l
      (k, resultRequeue, None,
       l ++ [EvGetCluster (Zone (Spec k)) (ClusterName (Status k)) (inr cluster)])
| BSecretFailed (cluster : container.Cluster) (x : Err) :
    ClusterName (Status k) ≠ "" ->
    gke.GetCluster client (Zone (Spec k)) (ClusterName (Status k)) = inr cluster ->
    container.Status cluster = ClusterStateRunning ->
    ApplySecret e (connectionSecret k cluster) = Some x ->
    BranchPath e k client l
      (finish e
         ((l ++ [EvGetCluster (Zone (Spec k)) (ClusterName (Status k)) (inr cluster)]) ++
          [EvApplySecret (connectionSecret k cluster) (Some x)])
         (failedRecord errorClusterConnectionSecret (Error x) k) resultRequeue)
| BReady (cluster : container.Cluster) :
    ClusterName (Status k) ≠ "" ->
    gke.GetCluster client (Zone (Spec k)) (ClusterName (Status k)) = inr cluster ->
    container.Status cluster = ClusterStateRunning ->
    ApplySecret e (connectionSecret k cluster) = None ->
    BranchPath e k client l
      (finish e
         ((l ++ [EvGetCluster (Zone (Spec k)) (ClusterName (Status k)) (inr cluster)]) ++
          [EvApplySecret (connectionSecret k cluster) None])
         (readyRecord k) result).

(** The log once the connect step has run. *)
Definition afterConnect (i : GKECluster) (l : Log) : Log :=
  l ++ [EvGetProvider (Namespace i) (ProviderRef (Spec i))].

Inductive Path (e : Env) (i : GKECluster) (l : Log) : Outcome * Log -> Prop :=
| PConnectFailed (x : Err) :
    connected e i = inl x ->
    Path e i l
      (finish e (afterConnect i l) (failedRecord errorClusterClient (Error x) i) resultRequeue)
| PDeleteFailed (client : gke.Client) (x : Err) :
    connected e i = inr client ->
    DeletionTimestamp i ≠ None ->
    ReclaimPolicy (Spec i) = corev1alpha1.ReclaimDelete ->
    gke.DeleteCluster client (Zone (Spec i)) (ClusterName (Status i)) = Some x ->
    Path e i l
      (finish e
         (afterConnect i l ++ [EvDeleteCluster (Zone (Spec i)) (ClusterName (Status i)) (Some x)])
         (failedRecord errorDeletingCluster (Error x) i) resultRequeue)
| PDeleted (client : gke.Client) :
    connected e i = inr client ->
    DeletionTimestamp i ≠ None ->
    ReclaimPolicy (Spec i) = corev1alpha1.ReclaimDelete ->
    gke.DeleteCluster client (Zone (Spec i)) (ClusterName (Status i)) = None ->
    Path e i l
      (finish e
         (afterConnect i l ++ [EvDeleteCluster (Zone (Spec i)) (ClusterName (Status i)) None])
         (releasedRecord i) result)
| PRetained (client : gke.Client) :
    connected e i = inr client ->
    DeletionTimestamp i ≠ None ->
    ReclaimPolicy (Spec i) ≠ corev1alpha1.ReclaimDelete ->
    Path e i l (finish e (afterConnect i l) (releasedRecord i) result)
| PFinalizerFailed (client : gke.Client) (x : Err) :
    connected e i = inr client ->
    DeletionTimestamp i = None ->
    util.HasFinalizer (Finalizers i) finalizer = false ->
    kube_Update e (countUpdates (afterConnect i l)) (finalizedRecord i) = Some x ->
    Path e i l
      (finalizedRecord i, resultRequeue, Some x,
       afterConnect i l ++ [EvUpdate (finalizedRecord i) (Some x)])
| PHasFinalizer (client : gke.Client) (out : Outcome * Log) :
    connected e i = inr client ->
    DeletionTimestamp i = None ->
    util.HasFinalizer (Finalizers i) finalizer = true ->
    BranchPath e i client (afterConnect i l) out ->
    Path e i l out
| PFinalizerAdded (client : gke.Client) (out : Outcome * Log) :
    connected e i = inr client ->
    DeletionTimestamp i = None ->
    util.HasFinalizer (Finalizers i) finalizer = false ->
    kube_Update e (countUpdates (afterConnect i l)) (finalizedRecord i) = None ->
    BranchPath e (finalizedRecord i) client
      (afterConnect i l ++ [EvUpdate (finalizedRecord i) None]) out ->
    Path e i l out.

(** The deletion of the record is requested at time [t] (by an actor other
    than the reconciler, which never writes this field). *)
Definition withDeletion (t : Z) (i : GKECluster) : GKECluster :=
  mkGKECluster (Namespace i) (Name i) (UID i) (Some t) (Finalizers i) (Spec i) (Status i).

(** A world in which the requested record is gone. *)
Definition goneRecordEnv : Env :=
  mkEnv (fun _ _ => inl errNotFound) (fun _ _ => inr (mkProvider true "gcp-creds"))
    (fun _ _ => None) (fun _ => inr (mkCredentials "project"))
    (fun _ => inr (okClient "RUNNING")) (fun _ => None).

(** ** Registering the controllers (compute/gke.go [add], database/add.go)

    [controller.New] and [c.Watch] are calls on the manager; their answers
    come from a [Manager] and each call is written, with its answer, to a log
    of its own. *)

Module wiring.

(** The resource kinds that are watched. *)
Inductive ResourceKind := KGKECluster | KCloudsqlInstance | KSecret | KPostgreSQLInstance | KMySQLInstance.

(** The event handlers the sources hand to [Watch]. *)
Inductive Handler :=
| EnqueueRequestForObject
| EnqueueRequestForOwner (IsController : bool) (OwnerType : ResourceKind)
| EnqueueRequestForClaim.

(** [Predicates] is the provisioner that [resource.ObjectHasProvisioner] is
    built with, when the watch carries predicates. *)
Record Manager := mkManager {
  New : string -> error;
  Watch : string -> ResourceKind -> Handler -> option string -> error
}.

(** [R] is the type of the reconciler handed to [controller.New]. *)
Inductive WEvent (R : Type) :=
| WNew (name : string) (r : R) (a : error)
| WWatch (controller : string) (src : ResourceKind) (h : Handler) (predicates : option string) (a : error).
Arguments WNew {R}.
Arguments WWatch {R}.

Definition W (R A : Type) : Type := list (WEvent R) -> A * list (WEvent R).

#[global] Instance W_ret R : MRet (W R) := fun A (a : A) l => (a, l).
#[global] Instance W_bind R : MBind (W R) :=
  fun A B (k : A -> W R B) (m : W R A) l => let '(a, l') := m l in k a l'.

(** [controller.New(name, mgr, controller.Options{Reconciler: r})]; the
    controller that comes back is known by its name. *)
Definition controllerNew {R} (mgr : Manager) (name : string) (r : R) : W R error :=
  fun l => let a := New mgr name in (a, l ++ [WNew name r a]).

(** [c.Watch(&source.Kind{Type: src}, h, predicates...)] *)
Definition controllerWatch {R} (mgr : Manager) (c : string) (src : ResourceKind) (h : Handler)
    (predicates : option string) : W R error :=
  fun l => let a := Watch mgr c src h predicates in (a, l ++ [WWatch c src h predicates a]).

Definition isWatch {R} (ev : WEvent R) : bool :=
  match ev with WWatch _ _ _ _ _ => true | _ => false end.

(** The answer a logged call got. *)
Definition answer {R} (ev : WEvent R) : error :=
  match ev with WNew _ _ a => a | WWatch _ _ _ _ a => a end.

(** The error that comes back is the last call's, put behind a message: nil
    when that call succeeded, otherwise an error of the same class whose text
    ends with the text of the cause. *)
Definition WrapsLast {R} (out : error * list (WEvent R)) : Prop :=
  ∃ ev, last out.2 = Some ev ∧
    match answer ev with
    | None => out.1 = None
    | Some x =>
        ∃ msg, out.1 = Some (mkErr (Kind x) (String.append msg (String.append ": " (Error x))))
    end.

(** Every call but the last one was answered without error. *)
Definition FailFast {R} (l : list (WEvent R)) : Prop :=
  ∀ n ev, l !! n = Some ev -> S n < List.length l -> answer ev = None.

(** [errors.Wrapf(err, format, args...)] of github.com/pkg/errors: nil stays
    nil; otherwise the message is put in front of the cause's text and the
    cause keeps its class. *)
Definition Wrapf (err : error) (msg : string) : error :=
  match err with
  | None => None
  | Some x => Some (mkErr (Kind x) (String.append msg (String.append ": " (Error x))))
  end.

(** add adds a new Controller to mgr with r as the reconcile.Reconciler
    (compute/gke.go). *)
Definition add (mgr : Manager) (r : Reconciler) : W Reconciler error :=
  (* Create a new controller *)
  err ← controllerNew mgr controllerName r;
  match err with
  | Some x => mret (Some x)
  | None =>
      (* Watch for changes to Provider *)
      err ← controllerWatch mgr controllerName KGKECluster EnqueueRequestForObject None;
      match err with
      | Some x => mret (Some x)
      | None => mret None
      end
  end.

(** The reconcilers of database/add.go, by what the source builds them
    from. *)
Inductive Configurator :=
| ConfigurePostgreSQLCloudsqlInstance
| ConfigureMyCloudsqlInstance
| ObjectMetaConfigurator.

Inductive DBReconciler :=
| InstanceReconciler
| ClaimReconciler (ClaimKind ClassKind ManagedKind : string) (configurators : list Configurator).

Section Database.

(** Constants and formatting of packages that are not part of the sources at
    hand: the controller name of the database package, the kind names of the
    two claims, the text of each group-version-kind, the provisioner of the
    managed kind, and [strings.ToLower]. *)
Variable controllerName : string.
Variable PostgreSQLInstanceKind MySQLInstanceKind : string.
Variable PostgreSQLInstanceGroupVersionKind MySQLInstanceGroupVersionKind : string.
Variable ResourceClassGroupVersionKind CloudsqlInstanceGroupVersionKind : string.
Variable CloudsqlInstanceKindAPIVersion : string.
Variable ToLower : string -> string.

(** Add creates a Controller that reconciles CloudsqlInstance resources *)
Definition Add (mgr : Manager) : W DBReconciler error :=
  let r := InstanceReconciler in
  err ← controllerNew mgr controllerName r;
  match err with
  | Some x => mret (Some x)
  | None =>
      (* Watch for changes to cloudsql instance *)
      err ← controllerWatch mgr controllerName KCloudsqlInstance EnqueueRequestForObject None;
      match err with
      | Some x => mret (Some x)
      | None =>
          (* Watch for changes to instance connection secret *)
          controllerWatch mgr controllerName KSecret
            (EnqueueRequestForOwner true KCloudsqlInstance) None
      end
  end.

(** AddPostgreSQLClaim adds a controller that reconciles PostgreSQLInstance
    instance claims by managing CloudsqlInstance resources to the supplied
    Manager. *)
Definition AddPostgreSQLClaim (mgr : Manager) : W DBReconciler error :=
  let r := ClaimReconciler PostgreSQLInstanceGroupVersionKind ResourceClassGroupVersionKind
             CloudsqlInstanceGroupVersionKind
             [ConfigurePostgreSQLCloudsqlInstance; ObjectMetaConfigurator] in
  let name := ToLower (String.append PostgreSQLInstanceKind (String.append "." controllerName)) in
  err ← controllerNew mgr name r;
  match err with
  | Some x =>
      mret (Wrapf (Some x)
              (String.append "cannot create " (String.append name " controller")))
  | None =>
      err ← controllerWatch mgr name KCloudsqlInstance EnqueueRequestForClaim None;
      match err with
      | Some x =>
          mret (Wrapf (Some x) (String.append "cannot watch for " CloudsqlInstanceGroupVersionKind))
      | None =>
          let p := CloudsqlInstanceKindAPIVersion in
          err ← controllerWatch mgr name KPostgreSQLInstance EnqueueRequestForObject (Some p);
          mret (Wrapf err (String.append "cannot watch for " PostgreSQLInstanceGroupVersionKind))
      end
  end.

(** AddMySQLClaim adds a controller that reconciles MySQLInstance instance
    claims by managing CloudsqlInstance resources to the supplied Manager. *)
Definition AddMySQLClaim (mgr : Manager) : W DBReconciler error :=
  let r := ClaimReconciler MySQLInstanceGroupVersionKind ResourceClassGroupVersionKind
             CloudsqlInstanceGroupVersionKind
             [ConfigureMyCloudsqlInstance; ObjectMetaConfigurator] in
  let name := ToLower (String.append MySQLInstanceKind (String.append "." controllerName)) in
  err ← controllerNew mgr name r;
  match err with
  | Some x =>
      mret (Wrapf (Some x)
              (String.append "cannot create " (String.append name " controller")))
  | None =>
      err ← controllerWatch mgr name KCloudsqlInstance EnqueueRequestForClaim None;
      match err with
      | Some x =>
          mret (Wrapf (Some x) (String.append "cannot watch for " CloudsqlInstanceGroupVersionKind))
      | None =>
          let p := CloudsqlInstanceKindAPIVersion in
          err ← controllerWatch mgr name KMySQLInstance EnqueueRequestForObject (Some p);
          mret (Wrapf err (String.append "cannot watch for " MySQLInstanceGroupVersionKind))
      end
  end.

(** The name the claim controllers are registered under:
    [strings.ToLower(fmt.Sprintf("%s.%s", kind, controllerName))]. *)
Definition claimControllerName (kind : string) : string :=
  ToLower (String.append kind (String.append "." controllerName)).

End Database.

End wiring.

(** ** The mocked CloudSQL client of the reconcile test
    (database/cloudsql_instance_test.go) *)

Module mock.

(** What [createMockDatabaseInstance(project, instance, state)] is called
    with. *)
Record DatabaseInstance := mkDatabaseInstance {
  Project : string;
  Instance : string;
  State : string
}.

(** A Go [int] of [intSize] bits (32 or 64, by platform): arithmetic wraps
    around in two's complement. *)
Definition wrapInt (intSize : Z) (z : Z) : Z :=
  ((z + 2 ^ (intSize - 1)) mod 2 ^ intSize - 2 ^ (intSize - 1))%Z.

(** [http.StatusNotFound] *)
Definition StatusNotFound : Z := 404.

(** [MockGetInstance]: the closure over [getInstanceCallCount].  The count
    before the call goes in, the answer and the count after the call come
    out; an error is the code of the [googleapi.Error]. *)
Definition MockGetInstance (intSize : Z) (getInstanceCallCount : Z) (project instance : string)
    : (Z + DatabaseInstance) * Z :=
  let getInstanceCallCount := wrapInt intSize (getInstanceCallCount + 1) in
  if (getInstanceCallCount <=? 1)%Z then
    (* first GET should return not found *)
    (inl StatusNotFound, getInstanceCallCount)
  else if (2 <=? getInstanceCallCount)%Z && (getInstanceCallCount <? 10)%Z then
    (inr (mkDatabaseInstance project instance "PENDING_CREATE"), getInstanceCallCount)
  else
    (inr (mkDatabaseInstance project instance "RUNNABLE"), getInstanceCallCount).

(** The answers of the first [n] calls, in order, starting from [count]. *)
Fixpoint calls (intSize : Z) (n : nat) (count : Z) (project instance : string)
    : list (Z + DatabaseInstance) :=
  match n with
  | 0 => []
  | S n' =>
      let '(a, count') := MockGetInstance intSize count project instance in
      a :: calls intSize n' count' project instance
  end.

End mock.
(** * Lemmas *)

(** ** Conditions *)

Section Conditions.
Import corev1alpha1.
Implicit Types (s : ConditionedStatus) (c : Condition) (t : ConditionType).

Lemma IsActive_app t s1 s2 : IsActive t (s1 ++ s2) = IsActive t s1 || IsActive t s2.
Proof. apply existsb_app. Qed.

Lemma IsActive_cons t c s :
  IsActive t (c :: s) = bool_decide (CType c = t) && CStatus c || IsActive t s.
Proof. reflexivity. Qed.

(** A test that needs the status on finds nothing once everything is unset. *)
Lemma existsb_filter_unset (f : Condition -> bool) (P : Condition -> Prop)
    `{!∀ x, Decision (P x)} s :
  (∀ c, CStatus c = false -> f c = false) ->
  existsb f (filter P (UnsetAllConditions s)) = false.
Proof.
  intros Hf. induction s as [|x s IH]; [done|].
  cbn [UnsetAllConditions map]. rewrite filter_cons.
  destruct (decide _); [|exact IH].
  cbn [existsb]. rewrite Hf by done. exact IH.
Qed.

Lemma UnsetAllConditions_NoneActive s : NoneActive (UnsetAllConditions s).
Proof.
  intros t. induction s as [|x s IH]; [done|].
  cbn [UnsetAllConditions map]. rewrite IsActive_cons. cbn [CStatus].
  rewrite andb_false_r. exact IH.
Qed.

Lemma IsActive_SetCondition_same c s :
  CStatus c = true -> IsActive (CType c) (SetCondition c s) = true.
Proof.
  intros Hc. unfold SetCondition. rewrite IsActive_app, (IsActive_cons _ c []).
  rewrite Hc, bool_decide_eq_true_2 by done.
  apply orb_true_r.
Qed.

Lemma IsActive_filter_other t t0 s :
  t ≠ t0 -> IsActive t (filter (fun x => CType x ≠ t0) s) = IsActive t s.
Proof.
  intros Ht. induction s as [|x s IH]; [done|].
  rewrite filter_cons. destruct (decide (CType x ≠ t0)) as [Hx|Hx].
  - by rewrite !IsActive_cons, IH.
  - rewrite IH, IsActive_cons.
    rewrite (bool_decide_eq_false_2 (CType x = t)); [done|].
    intros Hxt. apply Hx. congruence.
Qed.

Lemma IsActive_SetCondition_other t c s :
  t ≠ CType c -> IsActive t (SetCondition c s) = IsActive t s.
Proof.
  intros Ht. unfold SetCondition.
  rewrite IsActive_app, IsActive_filter_other, (IsActive_cons _ c []) by done.
  rewrite (bool_decide_eq_false_2 (CType c = t)) by congruence.
  cbn. by rewrite orb_false_r.
Qed.

Lemma SetCondition_elem c s : c ∈ SetCondition c s.
Proof. unfold SetCondition. apply elem_of_app. right. apply elem_of_cons. by left. Qed.

(** Unsetting everything and then setting one condition leaves exactly that
    one active. *)
Lemma unset_then_set_OnlyActive c s :
  CStatus c = true -> OnlyActive (CType c) (SetCondition c (UnsetAllConditions s)).
Proof.
  intros Hc t'. unfold SetCondition. rewrite IsActive_app.
  unfold IsActive at 1. rewrite existsb_filter_unset.
  - rewrite (IsActive_cons _ c []), Hc, andb_true_r. cbn. rewrite orb_false_r.
    apply bool_decide_ext. split; congruence.
  - intros x ->. apply andb_false_r.
Qed.

Lemma OnlyActive_AtMostOne t s : OnlyActive t s -> AtMostOneActive s = true.
Proof.
  intros H. unfold AtMostOneActive, ActiveTypes.
  apply bool_decide_eq_true_2.
  rewrite !filter_cons, filter_nil, !H.
  destruct t; vm_compute; lia.
Qed.

Lemma NoneActive_AtMostOne s : NoneActive s -> AtMostOneActive s = true.
Proof.
  intros H. unfold AtMostOneActive, ActiveTypes.
  apply bool_decide_eq_true_2.
  rewrite !filter_cons, filter_nil, !H.
  vm_compute; lia.
Qed.

Lemma OnlyActive_some t s : OnlyActive t s -> IsActive t s = true.
Proof. intros H. rewrite H. by apply bool_decide_eq_true_2. Qed.


Lemma surfacesCreateError_unset s : surfacesCreateError (UnsetAllConditions s) = false.
Proof.
  induction s as [|x s IH]; [done|].
  cbn. rewrite andb_false_r. exact IH.
Qed.

End Conditions.

Arguments corev1alpha1.SetCondition : simpl never.
Arguments corev1alpha1.UnsetAllConditions : simpl never.
Arguments corev1alpha1.SetFailed : simpl never.
Arguments corev1alpha1.SetCreating : simpl never.
Arguments corev1alpha1.SetReady : simpl never.
Arguments corev1alpha1.IsActive : simpl never.
Arguments surfacesCreateError : simpl never.
Arguments countUpdates : simpl never.
Arguments clusterNameOf : simpl never.
Arguments connected : simpl never.

(** ** The log *)

Lemma countUpdates_app l1 l2 : countUpdates (l1 ++ l2) = countUpdates l1 + countUpdates l2.
Proof. unfold countUpdates. by rewrite List.filter_app, length_app. Qed.

Lemma countUpdates_snoc_other l ev : isUpdate ev = false -> countUpdates (l ++ [ev]) = countUpdates l.
Proof.
  intros H. rewrite countUpdates_app. unfold countUpdates at 2. cbn. rewrite H. cbn. lia.
Qed.

Lemma countCreates_app l1 l2 : countCreates (l1 ++ l2) = countCreates l1 + countCreates l2.
Proof. unfold countCreates. by rewrite List.filter_app, length_app. Qed.

Lemma persisted_app f l1 l2 : persisted f (l1 ++ l2) = persisted (persisted f l1) l2.
Proof.
  revert f. induction l1 as [|ev l1 IH]; intros f; [done|].
  destruct ev as [| |k [x|]| | | |]; cbn; apply IH.
Qed.

(** ** The return paths *)

Lemma finish_persisted e f l k r :
  persisted f (log (finish e l k r)) =
    match err (finish e l k r) with None => k | Some _ => persisted f l end.
Proof.
  unfold finish, log, err. cbn [fst snd]. rewrite persisted_app.
  by destruct (kube_Update e _ k).
Qed.

Lemma finish_countCreates e l k r : countCreates (log (finish e l k r)) = countCreates l.
Proof. unfold finish, log. cbn [snd]. rewrite countCreates_app. cbn. lia. Qed.


Lemma finish_elem e l k r ev :
  ev ∈ log (finish e l k r) -> ev ∈ l ∨ ev = EvUpdate k (err (finish e l k r)).
Proof.
  unfold finish, log, err. cbn [fst snd]. intros [H|H]%elem_of_app; [by left|right].
  by in_list H.
Qed.



(** The records the paths build. *)

Lemma failedRecord_OnlyActive reason msg i :
  OnlyActive corev1alpha1.Failed (conds (failedRecord reason msg i)).
Proof.
  exact (unset_then_set_OnlyActive (corev1alpha1.mkCondition corev1alpha1.Failed true reason msg)
           _ eq_refl).
Qed.

Lemma failedRecord_Explains reason msg i :
  Explains corev1alpha1.Failed reason msg (conds (failedRecord reason msg i)).
Proof. apply SetCondition_elem. Qed.


Lemma badRequestRecord_active x i :
  corev1alpha1.IsActive corev1alpha1.Failed (conds (badRequestRecord x i)) = true.
Proof.
  exact (IsActive_SetCondition_same
           (corev1alpha1.mkCondition corev1alpha1.Failed true errorCreatingCluster (Error x))
           _ eq_refl).
Qed.

Lemma badRequestRecord_Explains x i :
  Explains corev1alpha1.Failed errorCreatingCluster (Error x) (conds (badRequestRecord x i)).
Proof. apply SetCondition_elem. Qed.

Lemma badRequestRecord_others x i t :
  t ≠ corev1alpha1.Failed ->
  corev1alpha1.IsActive t (conds (badRequestRecord x i)) = corev1alpha1.IsActive t (conds i).
Proof.
  intros Ht.
  exact (IsActive_SetCondition_other t
           (corev1alpha1.mkCondition corev1alpha1.Failed true errorCreatingCluster (Error x))
           _ Ht).
Qed.

Lemma createdRecord_OnlyActive i : OnlyActive corev1alpha1.Creating (conds (createdRecord i)).
Proof. exact (unset_then_set_OnlyActive creating _ eq_refl). Qed.


Lemma readyRecord_OnlyActive i : OnlyActive corev1alpha1.Ready (conds (readyRecord i)).
Proof. exact (unset_then_set_OnlyActive ready _ eq_refl). Qed.


Lemma releasedRecord_NoneActive i : NoneActive (conds (releasedRecord i)).
Proof. apply UnsetAllConditions_NoneActive. Qed.

Lemma releasedRecord_no_finalizer i : finalizer ∉ Finalizers (releasedRecord i).
Proof.
  cbn. unfold util.RemoveFinalizer. intros [_ H]%elem_of_difference.
  apply H. by apply elem_of_singleton.
Qed.

(** ** The branches, path by path *)

Lemma fail_eq e i reason msg l :
  fail e i reason msg l = finish e l (failedRecord reason msg i) resultRequeue.
Proof. reflexivity. Qed.

Lemma create_eq e i client l :
  _create e i client l =
    let a := gke.CreateCluster client (clusterNameOf i) (Spec i) in
    let l1 := l ++ [EvCreateCluster (clusterNameOf i) (Spec i) a] in
    match a with
    | None => finish e l1 (createdRecord i) resultRequeue
    | Some x =>
        if gcp.IsAlreadyExists x then finish e l1 (createdRecord i) resultRequeue
        else if gcp.IsBadRequest x then finish e l1 (badRequestRecord x i) result
        else finish e l1 (failedRecord errorCreatingCluster (Error x) i) resultRequeue
    end.
Proof.
  unfold _create, CreateCluster, fail, Update, finish, clusterNameOf, createdRecord,
    badRequestRecord, failedRecord. unfold_M.
  destruct (gke.CreateCluster client _ _) as [x|]; [|done].
  destruct (gcp.IsAlreadyExists x); [done|]. cbn [negb].
  by destruct (gcp.IsBadRequest x).
Qed.

Lemma sync_eq e i client l :
  _sync e i client l =
    let a := gke.GetCluster client (Zone (Spec i)) (ClusterName (Status i)) in
    let l1 := l ++ [EvGetCluster (Zone (Spec i)) (ClusterName (Status i)) a] in
    match a with
    | inl x => finish e l1 (failedRecord errorUpdatingCluster (Error x) i) resultRequeue
    | inr cluster =>
        if bool_decide (container.Status cluster ≠ ClusterStateRunning)
        then (i, resultRequeue, None, l1)
        else
          let s := connectionSecret i cluster in
          let b := ApplySecret e s in
          let l2 := l1 ++ [EvApplySecret s b] in
          match b with
          | Some x =>
              finish e l2 (failedRecord errorClusterConnectionSecret (Error x) i) resultRequeue
          | None => finish e l2 (readyRecord i) result
          end
    end.
Proof.
  unfold _sync, GetCluster, applySecret, fail, Update, finish, readyRecord, failedRecord.
  unfold_M.
  destruct (gke.GetCluster client _ _) as [x|cluster]; [done|].
  destruct (bool_decide _); [done|].
  by destruct (ApplySecret e _).
Qed.

Lemma delete_eq e i client l :
  _delete e i client l =
    if bool_decide (ReclaimPolicy (Spec i) = corev1alpha1.ReclaimDelete) then
      let a := gke.DeleteCluster client (Zone (Spec i)) (ClusterName (Status i)) in
      let l1 := l ++ [EvDeleteCluster (Zone (Spec i)) (ClusterName (Status i)) a] in
      match a with
      | Some x => finish e l1 (failedRecord errorDeletingCluster (Error x) i) resultRequeue
      | None => finish e l1 (releasedRecord i) result
      end
    else finish e l (releasedRecord i) result.
Proof.
  unfold _delete, DeleteCluster, fail, Update, finish, releasedRecord, failedRecord.
  unfold_M.
  destruct (bool_decide _); [|done].
  by destruct (gke.DeleteCluster client _ _).
Qed.

Lemma connect_run e i l :
  _connect e i l = (connected e i, l ++ [EvGetProvider (Namespace i) (ProviderRef (Spec i))]).
Proof. unfold connected, _connect. unfold_M. repeat case_match; reflexivity. Qed.

Lemma reconcile_eq e i l :
  reconcileInstance (newReconciler e) i l =
    let l1 := l ++ [EvGetProvider (Namespace i) (ProviderRef (Spec i))] in
    match connected e i with
    | inl x => finish e l1 (failedRecord errorClusterClient (Error x) i) resultRequeue
    | inr client =>
        if bool_decide (DeletionTimestamp i ≠ None) then _delete e i client l1
        else if util.HasFinalizer (Finalizers i) finalizer then liveBranch e i client l1
        else
          match kube_Update e (countUpdates l1) (finalizedRecord i) with
          | Some x =>
              (finalizedRecord i, resultRequeue, Some x,
               l1 ++ [EvUpdate (finalizedRecord i) (Some x)])
          | None => liveBranch e (finalizedRecord i) client (l1 ++ [EvUpdate (finalizedRecord i) None])
          end
    end.
Proof.
  unfold reconcileInstance, newReconciler, liveBranch, finalizedRecord. unfold_M.
  cbn [env connect create sync delete]. rewrite connect_run.
  destruct (connected e i) as [x|client]; [done|].
  destruct (bool_decide (DeletionTimestamp i ≠ None)); [done|].
  destruct (util.HasFinalizer _ _); cbn [negb].
  - by destruct (bool_decide _).
  - unfold Update. destruct (kube_Update e _ _); [done|].
    by destruct (bool_decide _).
Qed.

(** Once the record is fetched, [Reconcile] is [reconcileInstance]. *)
Lemma Reconcile_fetched r request i l :
  kube_Get (env r) request.1 request.2 = inr i ->
  Reconcile r request l =
    let out := reconcileInstance r i (l ++ [EvGet request.1 request.2]) in
    (Some (inst out), res out, err out, log out).
Proof.
  intros H. unfold Reconcile, inst, res, err, log. unfold_M.
  rewrite H. by destruct (reconcileInstance _ _ _) as [[[? ?] ?] ?].
Qed.

(** ** Every error is accounted for *)









(** ** Every external call is justified by the fetched record *)

Lemma liveBranch_justified e i k client l ev :
  Status k = Status i -> Spec k = Spec i -> UID k = UID i ->
  DeletionTimestamp i = None ->
  ev ∈ log (liveBranch e k client l) -> ev ∈ l ∨ CallJustified i ev.
Proof.
  intros Hs Hp Hu Hd. unfold liveBranch.
  destruct (bool_decide (ClusterName (Status k) = "")) eqn:Hn; decided.
  - rewrite create_eq. cbv zeta.
    assert (Hj : ∀ a, CallJustified i (EvCreateCluster (clusterNameOf k) (Spec k) a)).
    { intros a. unfold CallJustified, clusterNameOf. by rewrite Hu, Hp, <- Hs. }
    destruct (gke.CreateCluster client _ _) as [x|];
      [destruct (gcp.IsAlreadyExists x); [|destruct (gcp.IsBadRequest x)]|];
      intros [H| ->]%finish_elem; try (by right);
      (apply elem_of_app in H as [H|H]; [by left|right; by in_list H]).
  - rewrite sync_eq. cbv zeta.
    assert (Hj : ∀ a, CallJustified i (EvGetCluster (Zone (Spec k)) (ClusterName (Status k)) a)).
    { intros a. unfold CallJustified. by rewrite Hp, <- Hs. }
    destruct (gke.GetCluster client _ _) as [x|cluster].
    + intros [H| ->]%finish_elem; [|by right].
      apply elem_of_app in H as [H|H]; [by left|right; by in_list H].
    + destruct (bool_decide _).
      * unfold log. cbn [snd]. intros [H|H]%elem_of_app; [by left|right; by in_list H].
      * destruct (ApplySecret e _); intros [H| ->]%finish_elem; try (by right);
          (repeat (apply elem_of_app in H as [H|H]; [|right; by in_list H]); by left).
Qed.

Lemma delete_justified e i client l ev :
  DeletionTimestamp i ≠ None ->
  ev ∈ log (_delete e i client l) -> ev ∈ l ∨ CallJustified i ev.
Proof.
  intros Hd. rewrite delete_eq. cbv zeta.
  destruct (bool_decide _) eqn:Hp; decided.
  - destruct (gke.DeleteCluster client _ _); intros [H| ->]%finish_elem; try (by right);
      (apply elem_of_app in H as [H|H]; [by left|right; by in_list H]).
  - intros [H| ->]%finish_elem; [by left|by right].
Qed.

Lemma reconcile_justified e i l ev :
  ev ∈ log (reconcileInstance (newReconciler e) i l) -> ev ∈ l ∨ CallJustified i ev.
Proof.
  rewrite reconcile_eq. cbv zeta.
  destruct (connected e i) as [x|client].
  { intros [H| ->]%finish_elem; [|by right].
    apply elem_of_app in H as [H|H]; [by left|right; by in_list H]. }
  destruct (bool_decide (DeletionTimestamp i ≠ None)) eqn:Hd; decided.
  { intros [H|H]%delete_justified; [|by right|done].
    apply elem_of_app in H as [H|H]; [by left|right; by in_list H]. }
  assert (Hn : DeletionTimestamp i = None) by (by apply dec_stable).
  destruct (util.HasFinalizer _ _).
  { intros [H|H]%(liveBranch_justified e i); [|by right|done..].
    apply elem_of_app in H as [H|H]; [by left|right; by in_list H]. }
  destruct (kube_Update e _ _) as [x|].
  - unfold log. cbn [snd].
    intros H. repeat (apply elem_of_app in H as [H|H]; [|right; by in_list H]). by left.
  - intros [H|H]%(liveBranch_justified e i); [|by right|done..].
    repeat (apply elem_of_app in H as [H|H]; [|right; by in_list H]). by left.
Qed.

(** ** How the conditions are left *)



(** ** An absorbed AlreadyExists leaves no trace of a failed creation *)


Lemma countCreates_snoc_other l ev :
  isCreateCluster ev = false -> countCreates (l ++ [ev]) = countCreates l.
Proof. intros H. rewrite countCreates_app. unfold countCreates at 2. cbn. rewrite H. cbn. lia. Qed.

Lemma countCreates_snoc_create l n s a :
  countCreates (l ++ [EvCreateCluster n s a]) = countCreates l + 1.
Proof. by rewrite countCreates_app. Qed.

Lemma sameIdentity_trans a b c : sameIdentity a b -> sameIdentity b c -> sameIdentity a c.
Proof. unfold sameIdentity. intros (?&?&?&?&?) (?&?&?&?&?). split_and!; congruence. Qed.


Lemma create_absorbed_eq e k client l :
  (∀ x, gke.CreateCluster client (clusterNameOf k) (Spec k) = Some x ->
        gcp.IsAlreadyExists x = true) ->
  _create e k client l =
    finish e (l ++ [EvCreateCluster (clusterNameOf k) (Spec k)
                      (gke.CreateCluster client (clusterNameOf k) (Spec k))])
      (createdRecord k) resultRequeue.
Proof.
  intros Hx. rewrite create_eq. cbv zeta.
  destruct (gke.CreateCluster client _ _) as [x|]; [|done].
  by rewrite (Hx x eq_refl).
Qed.




(** ** At most one active condition, away from the bad-request path *)

Lemma liveBranch_at_most_one e k client l :
  corev1alpha1.AtMostOneActive (conds k) = true ->
  (∀ x, gke.CreateCluster client (clusterNameOf k) (Spec k) = Some x ->
        gcp.IsBadRequest x = false) ->
  corev1alpha1.AtMostOneActive (conds (inst (liveBranch e k client l))) = true.
Proof.
  intros Hk Hb. unfold liveBranch. destruct (bool_decide _).
  - rewrite create_eq. cbv zeta.
    destruct (gke.CreateCluster client _ _) as [x|];
      [destruct (gcp.IsAlreadyExists x); [|rewrite (Hb x eq_refl)]|];
      first [ exact (OnlyActive_AtMostOne _ _ (createdRecord_OnlyActive k))
            | exact (OnlyActive_AtMostOne _ _ (failedRecord_OnlyActive _ _ k)) ].
  - rewrite sync_eq. cbv zeta.
    destruct (gke.GetCluster client _ _) as [x|cluster].
    + exact (OnlyActive_AtMostOne _ _ (failedRecord_OnlyActive _ _ k)).
    + destruct (bool_decide _); [done|].
      destruct (ApplySecret e _);
        first [ exact (OnlyActive_AtMostOne _ _ (readyRecord_OnlyActive k))
              | exact (OnlyActive_AtMostOne _ _ (failedRecord_OnlyActive _ _ k)) ].
Qed.

(** Whenever the external create does not answer BadRequest, an invocation
    that starts with at most one active condition ends with at most one. *)
Lemma reconcile_at_most_one e i l :
  corev1alpha1.AtMostOneActive (conds i) = true ->
  (∀ client x, connected e i = inr client ->
     gke.CreateCluster client (clusterNameOf i) (Spec i) = Some x ->
     gcp.IsBadRequest x = false) ->
  corev1alpha1.AtMostOneActive (conds (inst (reconcileInstance (newReconciler e) i l))) = true.
Proof.
  intros Hi Hb. rewrite reconcile_eq. cbv zeta.
  destruct (connected e i) as [x|client] eqn:Hc.
  { exact (OnlyActive_AtMostOne _ _ (failedRecord_OnlyActive _ _ i)). }
  destruct (bool_decide (DeletionTimestamp i ≠ None)).
  { rewrite delete_eq. cbv zeta.
    destruct (bool_decide _); [destruct (gke.DeleteCluster client _ _)|];
      first [ exact (OnlyActive_AtMostOne _ _ (failedRecord_OnlyActive _ _ i))
            | exact (NoneActive_AtMostOne _ (releasedRecord_NoneActive i)) ]. }
  destruct (util.HasFinalizer _ _).
  { apply liveBranch_at_most_one; [done|]. intros x. by apply Hb. }
  destruct (kube_Update e _ _) as [x|]; [done|].
  apply liveBranch_at_most_one; [done|]. intros x. by apply (Hb client).
Qed.

(** * The claims *)

(** ** C1: the bad-request path of the create branch *)

(** On the bad-request path every category that was active stays active next
    to Failed. *)
Lemma create_bad_request_keeps_conditions e i client l x t :
  gke.CreateCluster client (clusterNameOf i) (Spec i) = Some x ->
  gcp.IsBadRequest x = true ->
  t ≠ corev1alpha1.Failed ->
  corev1alpha1.IsActive t (conds i) = true ->
  let out := _create e i client l in
  corev1alpha1.IsActive t (conds (inst out)) = true ∧
  corev1alpha1.IsActive corev1alpha1.Failed (conds (inst out)) = true.
Proof.
  intros Hc Hb Ht Hi. cbv zeta. rewrite create_eq. cbv zeta. rewrite Hc, Hb.
  assert (Ha : gcp.IsAlreadyExists x = false).
  { unfold gcp.IsBadRequest, gcp.IsAlreadyExists in *. by destruct (Kind x). }
  rewrite Ha. cbn [inst finish fst]. split.
  - by rewrite badRequestRecord_others.
  - apply badRequestRecord_active.
Qed.


(** ** C2: the delete branch with reclaim policy Delete *)

(** C2 (as amended): with reclaim policy Delete the delete branch calls the
    external delete once, with the record's zone and external name.  When the
    call returns no error the branch removes the engine's finalizer, unsets
    every condition and asks for no retry.  When the call returns an error of
    any kind, NotFound included, the branch keeps the finalizers as they are,
    leaves Failed as the only active condition, with reason
    errorDeletingCluster and the error's text, and asks for a requeue. *)
Theorem delete_branch_policy_Delete (e : Env) (i : GKECluster) (client : gke.Client) (l : Log) :
  ReclaimPolicy (Spec i) = corev1alpha1.ReclaimDelete ->
  let out := _delete e i client l in
  let answer := gke.DeleteCluster client (Zone (Spec i)) (ClusterName (Status i)) in
  let called := EvDeleteCluster (Zone (Spec i)) (ClusterName (Status i)) answer in
  log out = l ++ [called; EvUpdate (inst out) (err out)] ∧
  err out = kube_Update e (countUpdates l) (inst out) ∧
  match answer with
  | None =>
      Finalizers (inst out) = (Finalizers i ∖ {[ finalizer ]}) ∧
      (finalizer ∉ Finalizers (inst out)) ∧
      NoneActive (conds (inst out)) ∧
      res out = result
  | Some derr =>
      Finalizers (inst out) = Finalizers i ∧
      OnlyActive corev1alpha1.Failed (conds (inst out)) ∧
      Explains corev1alpha1.Failed errorDeletingCluster (Error derr) (conds (inst out)) ∧
      res out = resultRequeue
  end.
Proof.
  intros Hp. cbv zeta. rewrite delete_eq. cbv zeta.
  rewrite bool_decide_eq_true_2 by done.
  destruct (gke.DeleteCluster client _ _) as [derr|];
    unfold finish, inst, res, err, log; cbn [fst snd];
    rewrite countUpdates_snoc_other, <- app_assoc by done.
  - split_and!; try reflexivity.
    + apply failedRecord_OnlyActive.
    + apply failedRecord_Explains.
  - split_and!; try reflexivity.
    + apply releasedRecord_no_finalizer.
    + apply releasedRecord_NoneActive.
Qed.

Lemma delete_branch_policy_Delete_witness :
  let i := deletingRecord corev1alpha1.ReclaimDelete "gke-uid-1" in
  let out := _delete (goneEnv i) i goneClient [] in
  ReclaimPolicy (Spec i) = corev1alpha1.ReclaimDelete ∧
  Finalizers (inst out) = Finalizers i ∧ res out = resultRequeue.
Proof.
  intros i out. split; [reflexivity|].
  pose proof (delete_branch_policy_Delete (goneEnv i) i goneClient [] eq_refl) as (_ & _ & H).
  cbn in H. destruct H as (Hf & _ & _ & Hr). by split.
Defined.

(** C2 (as stated) fails: the external delete answers NotFound, and the
    reconcile ends with the finalizer still in place, the Failed condition set
    and a requeue; reconciling the record it persisted ends the same way. *)
Lemma delete_not_found_keeps_finalizer :
  let i := deletingRecord corev1alpha1.ReclaimDelete "gke-uid-1" in
  let out1 := reconcileInstance (newReconciler (goneEnv i)) i [] in
  let again := persisted i (log out1) in
  let out2 := reconcileInstance (newReconciler (goneEnv again)) again [] in
  gke.DeleteCluster goneClient "us-central1-a" "gke-uid-1" = Some errNotFound ∧
  Kind errNotFound = NotFound ∧
  ¬ (finalizer ∉ Finalizers (inst out1)) ∧
  corev1alpha1.IsActive corev1alpha1.Failed (conds (inst out1)) = true ∧
  res out1 = resultRequeue ∧
  ¬ (finalizer ∉ Finalizers (inst out2)) ∧
  corev1alpha1.IsActive corev1alpha1.Failed (conds (inst out2)) = true ∧
  res out2 = resultRequeue.
Proof.
  cbv zeta. split_and!; try reflexivity.
  - intros H. apply H. by vm_compute.
  - intros H. apply H. by vm_compute.
Qed.

(** ** C3: AlreadyExists on create *)



(** ** C4: other errors on create *)

(** C4: when the external create returns an error that is not AlreadyExists,
    the create branch sets the Failed condition with reason
    errorCreatingCluster and the error's text, submits the record in one
    Update right after the create call, and hands back that Update's error.
    For a BadRequest error the result asks for no requeue; for every other
    error it asks for one (and Failed is then the only active condition). *)
Theorem create_error_sets_failed
    (e : Env) (i : GKECluster) (client : gke.Client) (l : Log) (x : Err) :
  gke.CreateCluster client (clusterNameOf i) (Spec i) = Some x ->
  gcp.IsAlreadyExists x = false ->
  let out := _create e i client l in
  corev1alpha1.IsActive corev1alpha1.Failed (conds (inst out)) = true ∧
  Explains corev1alpha1.Failed errorCreatingCluster (Error x) (conds (inst out)) ∧
  log out = l ++ [EvCreateCluster (clusterNameOf i) (Spec i) (Some x);
                  EvUpdate (inst out) (err out)] ∧
  err out = kube_Update e (countUpdates l) (inst out) ∧
  ClusterName (Status (inst out)) = ClusterName (Status i) ∧
  (if gcp.IsBadRequest x
   then res out = result ∧ reconcile.Requeue (res out) = false ∧
        requeueAfterDelay (res out) = false
   else res out = resultRequeue ∧ reconcile.Requeue (res out) = true ∧
        OnlyActive corev1alpha1.Failed (conds (inst out))).
Proof.
  intros Hc Ha. cbv zeta. rewrite create_eq. cbv zeta. rewrite Hc, Ha.
  destruct (gcp.IsBadRequest x);
    unfold finish, inst, res, err, log; cbn [fst snd];
    rewrite countUpdates_snoc_other, <- app_assoc by done.
  - split_and!; try reflexivity.
    + apply badRequestRecord_active.
    + apply badRequestRecord_Explains.
  - split_and!; try reflexivity.
    + apply OnlyActive_some, failedRecord_OnlyActive.
    + apply failedRecord_Explains.
    + apply failedRecord_OnlyActive.
Qed.

Lemma create_error_sets_failed_witness :
  let i := sampleRecord None {[ finalizer ]} corev1alpha1.ReclaimDelete [] "" in
  let out := _create (okEnv i "RUNNING") i (createClient errBadRequest) [] in
  gcp.IsAlreadyExists errBadRequest = false ∧
  corev1alpha1.IsActive corev1alpha1.Failed (conds (inst out)) = true ∧
  reconcile.Requeue (res out) = false.
Proof.
  intros i out. split; [reflexivity|].
  pose proof (create_error_sets_failed (okEnv i "RUNNING") i (createClient errBadRequest) []
                errBadRequest eq_refl eq_refl) as (Ha & _ & _ & _ & _ & H).
  cbn in H. destruct H as (_ & Hq & _). by split.
Defined.

(** ** C5: the cluster is not running yet *)

(** C5 (as amended): when the external get succeeds and the observed state is
    not the running state, the sync branch hands the record back exactly as it
    received it (so no condition changes and Ready is not set), makes no
    Update and publishes no secret, returns no error, and asks for a requeue
    with [Requeue] true and [RequeueAfter] zero: a requeue signal with no
    delay attached, and no wait inside the call. *)
Theorem sync_not_running_requeues
    (e : Env) (i : GKECluster) (client : gke.Client) (l : Log) (cluster : container.Cluster) :
  gke.GetCluster client (Zone (Spec i)) (ClusterName (Status i)) = inr cluster ->
  container.Status cluster ≠ ClusterStateRunning ->
  let out := _sync e i client l in
  inst out = i ∧
  corev1alpha1.IsActive corev1alpha1.Ready (conds (inst out)) =
    corev1alpha1.IsActive corev1alpha1.Ready (conds i) ∧
  err out = None ∧
  log out = l ++ [EvGetCluster (Zone (Spec i)) (ClusterName (Status i)) (inr cluster)] ∧
  res out = resultRequeue ∧
  reconcile.Requeue (res out) = true ∧
  reconcile.RequeueAfter (res out) = 0%Z ∧
  requeueAfterDelay (res out) = false.
Proof.
  intros Hg Hs. cbv zeta. rewrite sync_eq. cbv zeta.
  rewrite Hg, bool_decide_eq_true_2 by done.
  by split_and!.
Qed.

Lemma sync_not_running_requeues_witness :
  let i := creatingRecord in
  let out := _sync (okEnv i "PROVISIONING") i (okClient "PROVISIONING") [] in
  container.Status (sampleCluster "PROVISIONING") ≠ ClusterStateRunning ∧
  inst out = i ∧ reconcile.Requeue (res out) = true.
Proof.
  intros i out. split; [done|].
  pose proof (sync_not_running_requeues (okEnv i "PROVISIONING") i (okClient "PROVISIONING") []
                (sampleCluster "PROVISIONING") eq_refl ltac:(done))
    as (Hi & _ & _ & _ & _ & Hq & _).
  by split.
Defined.

(** C5 (as stated) fails: a record in Creating whose cluster is still
    provisioning is reconciled; the one external get succeeds, the record
    comes back unchanged, and the result asks for a requeue but carries no
    delay, so it is not a requeue-after-delay signal. *)
Lemma sync_not_running_no_delay :
  let i := creatingRecord in
  let out := reconcileInstance (newReconciler (okEnv i "PROVISIONING")) i [] in
  countGets (log out) = 1 ∧
  inst out = i ∧
  reconcile.Requeue (res out) = true ∧
  reconcile.RequeueAfter (res out) = 0%Z ∧
  ¬ (requeueAfterDelay (res out) = true).
Proof. cbv zeta. split_and!; try reflexivity. by vm_compute. Qed.

(** ** C6: the cluster is running *)

Lemma connectionSecret_keys i cluster :
  dom (Data (connectionSecret i cluster)) = connectionSecretKeys.
Proof.
  unfold connectionSecret, connectionSecretKeys. cbn [Data].
  rewrite !dom_insert_L, dom_empty_L. set_solver.
Qed.

Lemma connectionSecret_values i cluster :
  let data := Data (connectionSecret i cluster) in
  let auth := container.MasterAuth_ cluster in
  data !! "endpoint" = Some (bytesOf (container.Endpoint cluster)) ∧
  data !! "username" = Some (bytesOf (container.Username auth)) ∧
  data !! "password" = Some (bytesOf (container.Password auth)) ∧
  data !! "ca-certificate" = Some (bytesOf (container.ClusterCaCertificate auth)) ∧
  data !! "client-certificate" = Some (bytesOf (container.ClientCertificate auth)) ∧
  data !! "client-key" = Some (bytesOf (container.ClientKey auth)).
Proof.
  unfold connectionSecret. cbn [Data]. split_and!; by simplify_map_eq.
Qed.

(** C6: when the external get succeeds and the observed state is the running
    state, the sync branch builds the connection secret of the record with
    exactly the six keys endpoint, username, password, ca-certificate,
    client-certificate and client-key, each holding the bytes of the matching
    attribute of the observed cluster, and hands it to ApplySecret.  When that
    succeeds, Ready becomes the only active condition, the record is submitted
    in one Update and no requeue is asked for; when it fails, Failed becomes
    the only active condition, with reason errorClusterConnectionSecret and
    the error's text, and a requeue is asked for. *)
Theorem sync_running_publishes_secret
    (e : Env) (i : GKECluster) (client : gke.Client) (l : Log) (cluster : container.Cluster) :
  gke.GetCluster client (Zone (Spec i)) (ClusterName (Status i)) = inr cluster ->
  container.Status cluster = ClusterStateRunning ->
  let out := _sync e i client l in
  let secret := connectionSecret i cluster in
  let auth := container.MasterAuth_ cluster in
  dom (Data secret) = connectionSecretKeys ∧
  size (Data secret) = 6 ∧
  Data secret !! "endpoint" = Some (bytesOf (container.Endpoint cluster)) ∧
  Data secret !! "username" = Some (bytesOf (container.Username auth)) ∧
  Data secret !! "password" = Some (bytesOf (container.Password auth)) ∧
  Data secret !! "ca-certificate" = Some (bytesOf (container.ClusterCaCertificate auth)) ∧
  Data secret !! "client-certificate" = Some (bytesOf (container.ClientCertificate auth)) ∧
  Data secret !! "client-key" = Some (bytesOf (container.ClientKey auth)) ∧
  log out = l ++ [EvGetCluster (Zone (Spec i)) (ClusterName (Status i)) (inr cluster);
                  EvApplySecret secret (ApplySecret e secret);
                  EvUpdate (inst out) (err out)] ∧
  err out = kube_Update e (countUpdates l) (inst out) ∧
  match ApplySecret e secret with
  | None =>
      OnlyActive corev1alpha1.Ready (conds (inst out)) ∧
      res out = result ∧ reconcile.Requeue (res out) = false
  | Some x =>
      OnlyActive corev1alpha1.Failed (conds (inst out)) ∧
      Explains corev1alpha1.Failed errorClusterConnectionSecret (Error x) (conds (inst out)) ∧
      res out = resultRequeue ∧ reconcile.Requeue (res out) = true
  end.
Proof.
  intros Hg Hs. cbv zeta.
  pose proof (connectionSecret_values i cluster) as (H1 & H2 & H3 & H4 & H5 & H6).
  pose proof (connectionSecret_keys i cluster) as Hk.
  split; [exact Hk|]. split; [rewrite <- size_dom, Hk; by vm_compute|].
  do 6 (split; [assumption|]).
  rewrite sync_eq. cbv zeta.
  rewrite Hg, bool_decide_eq_false_2 by (intros H; by apply H).
  destruct (ApplySecret e (connectionSecret i cluster)) as [x|];
    unfold finish, inst, res, err, log; cbn [fst snd];
    rewrite !countUpdates_snoc_other, <- !app_assoc by done.
  - split_and!; try reflexivity.
    + apply failedRecord_OnlyActive.
    + apply failedRecord_Explains.
  - split_and!; try reflexivity. apply readyRecord_OnlyActive.
Qed.

Lemma sync_running_publishes_secret_witness :
  let i := creatingRecord in
  let out := _sync (okEnv i "RUNNING") i (okClient "RUNNING") [] in
  container.Status (sampleCluster "RUNNING") = ClusterStateRunning ∧
  size (Data (connectionSecret i (sampleCluster "RUNNING"))) = 6 ∧
  OnlyActive corev1alpha1.Ready (conds (inst out)).
Proof.
  intros i out. split; [reflexivity|].
  pose proof (sync_running_publishes_secret (okEnv i "RUNNING") i (okClient "RUNNING") []
                (sampleCluster "RUNNING") eq_refl eq_refl)
    as (_ & Hsz & _ & _ & _ & _ & _ & _ & _ & _ & H).
  cbn in H. destruct H as (Ho & _). by split.
Defined.

(** ** C7: reclaim policy Retain *)

(** C7: for a fetched record with a deletion request and reclaim policy
    Retain, once the client is connected, reconcile removes the engine's
    finalizer, submits the record in one Update, asks for no retry, and the
    whole invocation consists of the fetch, the provider lookup and that
    Update: the external delete is never invoked. *)
Theorem retain_removes_finalizer_without_external_delete
    (e : Env) (request : string * string) (i : GKECluster) (client : gke.Client) :
  kube_Get e request.1 request.2 = inr i ->
  connected e i = inr client ->
  DeletionTimestamp i ≠ None ->
  ReclaimPolicy (Spec i) = corev1alpha1.ReclaimRetain ->
  ∃ i' uerr l,
    Reconcile (newReconciler e) request [] = (Some i', result, uerr, l) ∧
    l = [EvGet request.1 request.2; EvGetProvider (Namespace i) (ProviderRef (Spec i));
         EvUpdate i' uerr] ∧
    countDeletes l = 0 ∧
    Finalizers i' = (Finalizers i ∖ {[ finalizer ]}) ∧
    (finalizer ∉ Finalizers i') ∧
    uerr = kube_Update e 0 i' ∧
    (uerr = None -> persisted i l = i').
Proof.
  intros Hg Hc Hd Hp.
  rewrite (Reconcile_fetched (newReconciler e) request i [] Hg). cbv zeta.
  rewrite reconcile_eq. cbv zeta. rewrite Hc, bool_decide_eq_true_2 by done.
  rewrite delete_eq, Hp. cbv zeta.
  rewrite bool_decide_eq_false_2 by done.
  eexists _, _, _. split; [reflexivity|].
  split_and!; try reflexivity.
  - apply releasedRecord_no_finalizer.
  - cbn. by intros ->.
Qed.

Lemma retain_removes_finalizer_witness :
  let i := deletingRecord corev1alpha1.ReclaimRetain "gke-uid-1" in
  DeletionTimestamp i ≠ None ∧ ReclaimPolicy (Spec i) = corev1alpha1.ReclaimRetain ∧
  ∃ i' uerr l,
    Reconcile (newReconciler (okEnv i "RUNNING")) sampleRequest [] = (Some i', result, uerr, l) ∧
    finalizer ∉ Finalizers i'.
Proof.
  intros i. split; [done|]. split; [reflexivity|].
  destruct (retain_removes_finalizer_without_external_delete
              (okEnv i "RUNNING") sampleRequest i (okClient "RUNNING")
              eq_refl eq_refl ltac:(done) eq_refl)
    as (i' & uerr & l & Hrun & _ & _ & _ & Hnot & _).
  exists i', uerr, l. split; [exact Hrun | exact Hnot].
Defined.

(** ** C8: which name the external calls carry *)

(** C8 (as amended): every call reconcile makes on the external resource is
    made for the fetched record and carries a name taken from the record, never
    one looked up from the spec: the external get is invoked only when
    status.externalName is non-empty and with that name; the external delete
    is invoked only when deletion is requested and the reclaim policy is
    Delete, with status.externalName as it stands; the external create is
    invoked only when status.externalName is empty, with the name derived from
    the record's identity.  When the fetch fails nothing but the fetch
    happens. *)
Theorem external_calls_use_recorded_name (e : Env) (request : string * string) (ev : Event) :
  ev ∈ (Reconcile (newReconciler e) request []).2 ->
  match kube_Get e request.1 request.2 with
  | inr i => CallJustified i ev
  | inl _ => ev = EvGet request.1 request.2
  end.
Proof.
  intros Hev. destruct (kube_Get e request.1 request.2) as [x|i] eqn:Hg.
  - revert Hev. unfold Reconcile. unfold_M.
    cbn [env newReconciler]. rewrite Hg.
    destruct (errors.IsNotFound x); cbn; intros Hev; by in_list Hev.
  - rewrite (Reconcile_fetched (newReconciler e) request i [] Hg) in Hev.
    cbv zeta in Hev. cbn [snd app] in Hev.
    apply reconcile_justified in Hev as [Hev|Hev]; [|done].
    by in_list Hev.
Qed.

Lemma external_calls_use_recorded_name_witness :
  let ev := EvGetCluster "us-central1-a" "gke-uid-1" (inr (sampleCluster "RUNNING")) in
  ev ∈ (Reconcile (newReconciler (okEnv creatingRecord "RUNNING")) sampleRequest []).2 ∧
  CallJustified creatingRecord ev.
Proof.
  intros ev.
  assert (Hev : ev ∈ (Reconcile (newReconciler (okEnv creatingRecord "RUNNING"))
                        sampleRequest []).2).
  { vm_compute. do 2 apply list_elem_of_further. apply list_elem_of_here. }
  split; [exact Hev|].
  exact (external_calls_use_recorded_name (okEnv creatingRecord "RUNNING") sampleRequest ev Hev).
Defined.

(** C8 (as stated) fails: the deletion of a record is requested before any
    create succeeded, so its status.externalName is empty; reconcile invokes
    the external delete all the same, with the empty name. *)
Lemma delete_invoked_with_empty_name :
  let out := Reconcile (newReconciler (okEnv neverCreated "RUNNING")) sampleRequest [] in
  ClusterName (Status neverCreated) = "" ∧
  List.nth_error out.2 2 = Some (EvDeleteCluster "us-central1-a" "" None) ∧
  ¬ (∀ z n a, EvDeleteCluster z n a ∈ out.2 -> n ≠ "").
Proof.
  cbv zeta. split_and!; try reflexivity.
  intros H. apply (H "us-central1-a" "" None); [|reflexivity].
  vm_compute. do 2 apply list_elem_of_further. apply list_elem_of_here.
Qed.

(** ** C9: what becomes of an error *)




(** ** C10: connect fails while deletion is requested *)

(** C10: for a fetched record with a deletion request, if connecting to the
    provider fails, reconcile ends in the fail helper: Failed is the only
    active condition, with reason errorClusterClient and the error's text, a
    requeue is asked for, the finalizers are what they were, and nothing but
    the fetch, the provider lookup and one Update happened.  This holds for
    every reclaim policy, Retain included: the connect step runs before the
    deletion check. *)
Theorem connect_failure_blocks_deletion
    (e : Env) (request : string * string) (i : GKECluster) (cerr : Err) :
  kube_Get e request.1 request.2 = inr i ->
  connected e i = inl cerr ->
  DeletionTimestamp i ≠ None ->
  ∃ i' uerr,
    Reconcile (newReconciler e) request [] =
      (Some i', resultRequeue, uerr,
       [EvGet request.1 request.2; EvGetProvider (Namespace i) (ProviderRef (Spec i));
        EvUpdate i' uerr]) ∧
    Finalizers i' = Finalizers i ∧
    OnlyActive corev1alpha1.Failed (conds i') ∧
    Explains corev1alpha1.Failed errorClusterClient (Error cerr) (conds i') ∧
    reconcile.Requeue resultRequeue = true.
Proof.
  intros Hg Hc _.
  rewrite (Reconcile_fetched (newReconciler e) request i [] Hg). cbv zeta.
  rewrite reconcile_eq. cbv zeta. rewrite Hc.
  eexists _, _. split; [reflexivity|].
  split_and!; try reflexivity.
  - apply failedRecord_OnlyActive.
  - apply failedRecord_Explains.
Qed.

Lemma connect_failure_blocks_deletion_witness :
  let i := deletingRecord corev1alpha1.ReclaimRetain "gke-uid-1" in
  DeletionTimestamp i ≠ None ∧ ReclaimPolicy (Spec i) = corev1alpha1.ReclaimRetain ∧
  ∃ i' uerr l,
    Reconcile (newReconciler (offlineEnv i)) sampleRequest [] = (Some i', resultRequeue, uerr, l) ∧
    Finalizers i' = Finalizers i.
Proof.
  intros i. split; [done|]. split; [reflexivity|].
  destruct (connect_failure_blocks_deletion (offlineEnv i) sampleRequest i errOther
              eq_refl eq_refl ltac:(done))
    as (i' & uerr & Hrun & Hf & _).
  exists i', uerr. eexists. split; [exact Hrun | exact Hf].
Defined.
(** * Further properties of the reconciler *)

(** ** The code takes one of the paths *)

Lemma liveBranch_paths e k client l : BranchPath e k client l (liveBranch e k client l).
Proof.
  unfold liveBranch. destruct (bool_decide (ClusterName (Status k) = "")) eqn:Hn; decided.
  - rewrite create_eq. cbv zeta.
    destruct (gke.CreateCluster client _ _) as [x|] eqn:Hc.
    + destruct (gcp.IsAlreadyExists x) eqn:Ha.
      * by apply (BCreated e k client l (Some x)).
      * destruct (gcp.IsBadRequest x) eqn:Hb; [by apply BBadRequest|by apply BCreateFailed].
    + by apply (BCreated e k client l None).
  - rewrite sync_eq. cbv zeta.
    destruct (gke.GetCluster client _ _) as [x|cluster] eqn:Hg; [by apply BGetFailed|].
    destruct (bool_decide (container.Status cluster ≠ ClusterStateRunning)) eqn:Hs; decided.
    + by apply BNotRunning.
    + assert (Hr : container.Status cluster = ClusterStateRunning) by (by apply dec_stable).
      destruct (ApplySecret e _) as [x|] eqn:Hb; [by apply BSecretFailed|by apply BReady].
Qed.

Lemma reconcile_paths e i l : Path e i l (reconcileInstance (newReconciler e) i l).
Proof.
  rewrite reconcile_eq. cbv zeta. fold (afterConnect i l).
  destruct (connected e i) as [x|client] eqn:Hc; [by apply PConnectFailed|].
  destruct (bool_decide (DeletionTimestamp i ≠ None)) eqn:Hd; decided.
  { rewrite delete_eq. cbv zeta.
    destruct (bool_decide (ReclaimPolicy (Spec i) = corev1alpha1.ReclaimDelete)) eqn:Hp; decided.
    - destruct (gke.DeleteCluster client _ _) as [x|] eqn:Hx;
        [by apply (PDeleteFailed e i l client)|by apply (PDeleted e i l client)].
    - by apply (PRetained e i l client). }
  assert (Hn : DeletionTimestamp i = None) by (by apply dec_stable).
  destruct (util.HasFinalizer (Finalizers i) finalizer) eqn:Hf.
  { apply (PHasFinalizer e i l client); [done..|]. apply liveBranch_paths. }
  destruct (kube_Update e _ _) as [x|] eqn:Hu.
  - by apply (PFinalizerFailed e i l client).
  - apply (PFinalizerAdded e i l client); [done..|]. apply liveBranch_paths.
Qed.

Ltac explicit :=
  unfold finish, afterConnect, inst, res, err, log in *; cbn [fst snd app] in *.

(** Case analysis on the path the invocation on [i], started on log [l],
    takes. *)
Ltac paths e i l :=
  let HP := fresh "HP" in
  let HB := fresh "HB" in
  pose proof (reconcile_paths e i l) as HP;
  let out := fresh "out" in
  let E := fresh "E" in
  remember (reconcileInstance (newReconciler e) i l) as out eqn:E; clear E;
  destruct HP as [px Pc|pclient px Pc Pd Pp Px|pclient Pc Pd Pp Px|pclient Pc Pd Pp
                 |pclient px Pc Pd Pf Pu|pclient out Pc Pd Pf HB|pclient out Pc Pd Pf Pu HB];
  [..|destruct HB as [pa Pn Pa Px|px Pn Px Pa Pb|px Pn Px Pa Pb|px Pn Pg|pcluster Pn Pg Ps
                     |pcluster px Pn Pg Ps Pb|pcluster Pn Pg Ps Pb]
     |destruct HB as [pa Pn Pa Px|px Pn Px Pa Pb|px Pn Px Pa Pb|px Pn Pg|pcluster Pn Pg Ps
                     |pcluster px Pn Pg Ps Pb|pcluster Pn Pg Ps Pb]];
  explicit.

Lemma HasFinalizer_elem fs : util.HasFinalizer fs finalizer = true -> finalizer ∈ fs.
Proof. unfold util.HasFinalizer. apply bool_decide_eq_true_1. Qed.

Lemma HasFinalizer_not_elem fs : util.HasFinalizer fs finalizer = false -> finalizer ∉ fs.
Proof. unfold util.HasFinalizer. apply bool_decide_eq_false_1. Qed.

Lemma finalizedRecord_elem i : finalizer ∈ Finalizers (finalizedRecord i).
Proof. cbn. unfold util.AddFinalizer. apply elem_of_union. left. by apply elem_of_singleton. Qed.

(** ** The connect step *)

(** X1: the connect step succeeds exactly when the provider named by the
    record (in the record's namespace, under the name of spec.providerRef) is
    found and valid, its credentials can be read and the client can be built
    from them; it then hands out that client.  Whatever the outcome, it makes
    exactly one provider lookup. *)
Theorem connect_succeeds_iff (e : Env) (i : GKECluster) (client : gke.Client) (l : Log) :
  ((_connect e i l).1 = inr client ↔
   ∃ p creds,
     kube_GetProvider e (Namespace i) (ProviderRef (Spec i)) = inr p ∧
     IsValid p = true ∧
     ProviderCredentials e p = inr creds ∧
     NewClusterClient e creds = inr client) ∧
  (_connect e i l).2 = l ++ [EvGetProvider (Namespace i) (ProviderRef (Spec i))].
Proof.
  split; [|by rewrite connect_run].
  unfold _connect. unfold_M. split.
  - destruct (kube_GetProvider e _ _) as [x|p] eqn:Hp; [done|].
    destruct (IsValid p) eqn:Hv; [|done]. cbn [negb].
    destruct (ProviderCredentials e p) as [x|creds] eqn:Hcr; [done|].
    cbn [fst]. intros Hn. by exists p, creds.
  - intros (p & creds & -> & -> & -> & ->). done.
Qed.

(** X2: when the provider is found but is not valid, reconcile never looks at
    the credentials or the client factory: whatever they would answer, the
    record gets Failed as its only active condition, with reason
    errorClusterClient and the text "provider status is invalid", it is
    submitted in one Update, a requeue is asked for, and neither the external
    resource nor the finalizers are touched. *)
Theorem invalid_provider_is_reported
    (e : Env) (request : string * string) (i : GKECluster) (p : Provider) :
  kube_Get e request.1 request.2 = inr i ->
  kube_GetProvider e (Namespace i) (ProviderRef (Spec i)) = inr p ->
  IsValid p = false ->
  ∃ i' uerr,
    Reconcile (newReconciler e) request [] =
      (Some i', resultRequeue, uerr,
       [EvGet request.1 request.2; EvGetProvider (Namespace i) (ProviderRef (Spec i));
        EvUpdate i' uerr]) ∧
    OnlyActive corev1alpha1.Failed (conds i') ∧
    Explains corev1alpha1.Failed errorClusterClient "provider status is invalid" (conds i') ∧
    Finalizers i' = Finalizers i ∧
    ClusterName (Status i') = ClusterName (Status i).
Proof.
  intros Hg Hp Hv.
  assert (Hc : connected e i = inl (mkErr Other "provider status is invalid")).
  { unfold connected, _connect. unfold_M. by rewrite Hp, Hv. }
  rewrite (Reconcile_fetched (newReconciler e) request i [] Hg). cbv zeta.
  rewrite reconcile_eq. cbv zeta. rewrite Hc.
  eexists _, _. split; [reflexivity|].
  split_and!; try reflexivity.
  - apply failedRecord_OnlyActive.
  - apply failedRecord_Explains.
Qed.

(** A provider that is not valid. *)
Lemma invalid_provider_is_reported_witness :
  let e := mkEnv (fun _ _ => inr freshRecord) (fun _ _ => inr (mkProvider false "gcp-creds"))
             (fun _ _ => None) (fun _ => inr (mkCredentials "project"))
             (fun _ => inr (okClient "RUNNING")) (fun _ => None) in
  ∃ i' uerr l,
    Reconcile (newReconciler e) sampleRequest [] = (Some i', resultRequeue, uerr, l) ∧
    OnlyActive corev1alpha1.Failed (conds i').
Proof.
  intros e.
  destruct (invalid_provider_is_reported e sampleRequest freshRecord
              (mkProvider false "gcp-creds") eq_refl eq_refl eq_refl)
    as (i' & uerr & Hrun & Ho & _).
  exists i', uerr. eexists. split; [exact Hrun|exact Ho].
Defined.

(** ** The fetch *)

(** X3: when the record cannot be fetched, nothing else happens, whatever
    sub-steps the reconciler was built with: the invocation consists of the
    fetch alone and asks for no requeue; a NotFound error is swallowed (the
    record is gone, there is nothing to do) and any other error is handed
    back as it is. *)
Theorem fetch_failure_runs_nothing (r : Reconciler) (request : string * string) (x : Err) :
  kube_Get (env r) request.1 request.2 = inl x ->
  Reconcile r request [] =
    (None, reconcile.mkResult false 0,
     (if errors.IsNotFound x then None else Some x),
     [EvGet request.1 request.2]).
Proof.
  intros Hg. unfold Reconcile. unfold_M. rewrite Hg.
  by destruct (errors.IsNotFound x).
Qed.

Lemma fetch_failure_runs_nothing_witness :
  Reconcile (newReconciler goneRecordEnv) sampleRequest [] =
    (None, reconcile.mkResult false 0, None, [EvGet "default" "demo"]).
Proof.
  exact (fetch_failure_runs_nothing (newReconciler goneRecordEnv) sampleRequest errNotFound
           eq_refl).
Defined.

(** ** What one invocation does at most *)

(** X4: one invocation makes at most one call on the external resource
    (create, get and delete together), publishes the secret at most once and
    only after a get, and submits at most two Updates. *)
Theorem one_external_call_per_invocation (e : Env) (request : string * string) :
  let l := (Reconcile (newReconciler e) request []).2 in
  countCreates l + countGets l + countDeletes l ≤ 1 ∧
  countApplies l ≤ countGets l ∧
  countUpdates l ≤ 2.
Proof.
  cbv zeta. destruct (kube_Get e request.1 request.2) as [x|i] eqn:Hg.
  - rewrite (fetch_failure_runs_nothing (newReconciler e) request x Hg). cbn.
    unfold countUpdates. cbn. lia.
  - rewrite (Reconcile_fetched (newReconciler e) request i [] Hg). cbv zeta. cbn [snd app].
    fold (log (reconcileInstance (newReconciler e) i [EvGet request.1 request.2])).
    paths e i [EvGet request.1 request.2];
      unfold countCreates, countGets, countDeletes, countApplies, countUpdates;
      cbn; lia.
Qed.

(** ** What reconcile never writes *)

(** X5: reconcile writes the status and the finalizers only.  The record it
    hands back and every record it submits in an Update have the namespace,
    name, UID, deletion timestamp and spec of the fetched record. *)
Theorem reconcile_never_writes_spec (e : Env) (request : string * string) (i : GKECluster) :
  kube_Get e request.1 request.2 = inr i ->
  match Reconcile (newReconciler e) request [] with
  | (Some i', _, _, l) =>
      sameIdentity i' i ∧ ∀ k a, EvUpdate k a ∈ l -> sameIdentity k i
  | _ => False
  end.
Proof.
  intros Hg. rewrite (Reconcile_fetched (newReconciler e) request i [] Hg). cbv zeta.
  cbn [app].
  paths e i [EvGet request.1 request.2];
    (split; [done|]); intros k a Hk; in_list Hk; done.
Qed.

Lemma reconcile_never_writes_spec_witness :
  match Reconcile (newReconciler (okEnv freshRecord "RUNNING")) sampleRequest [] with
  | (Some i', _, _, l) => Spec i' = Spec freshRecord ∧ UID i' = UID freshRecord
  | _ => False
  end.
Proof.
  pose proof (reconcile_never_writes_spec (okEnv freshRecord "RUNNING") sampleRequest
                freshRecord eq_refl) as H.
  destruct (Reconcile _ _ _) as [[[[i'|] r] uerr] l]; [|done].
  destruct H as ((_ & _ & Hu & _ & Hs) & _). by split.
Defined.



(** ** The finalizer *)

(** X7: reconcile touches no finalizer but its own, and gives its own up only
    when the cleanup is over: if the fetched record carries the engine's
    finalizer and the record handed back does not, then deletion was
    requested, no requeue is asked for, and with reclaim policy Delete the
    external delete was called for the recorded name and returned no error.
    A record without deletion request leaves with the finalizer whenever the
    client could be connected. *)
Theorem finalizer_given_up_only_after_cleanup
    (e : Env) (request : string * string) (i : GKECluster) :
  kube_Get e request.1 request.2 = inr i ->
  match Reconcile (newReconciler e) request [] with
  | (Some i', r, _, l) =>
      (∀ f, f ≠ finalizer -> f ∈ Finalizers i' ↔ f ∈ Finalizers i) ∧
      (finalizer ∈ Finalizers i -> finalizer ∉ Finalizers i' ->
         DeletionTimestamp i ≠ None ∧ r = result ∧
         (ReclaimPolicy (Spec i) = corev1alpha1.ReclaimDelete ->
          EvDeleteCluster (Zone (Spec i)) (ClusterName (Status i)) None ∈ l)) ∧
      (DeletionTimestamp i = None -> (∃ c, connected e i = inr c) -> finalizer ∈ Finalizers i')
  | _ => False
  end.
Proof.
  intros Hg. rewrite (Reconcile_fetched (newReconciler e) request i [] Hg). cbv zeta.
  cbn [app].
  assert (Hadd : ∀ f, f ≠ finalizer ->
            f ∈ Finalizers (finalizedRecord i) ↔ f ∈ Finalizers i).
  { intros f Hf. cbn. unfold util.AddFinalizer. set_solver. }
  assert (Hrem : ∀ f, f ≠ finalizer ->
            f ∈ Finalizers (releasedRecord i) ↔ f ∈ Finalizers i).
  { intros f Hf. cbn. unfold util.RemoveFinalizer. set_solver. }
  pose proof (finalizedRecord_elem i) as Hfin.
  paths e i [EvGet request.1 request.2].
  all: split_and!;
    [ first [done | exact Hadd | exact Hrem]
    | intros Hin Hout;
      first [ by destruct Hout
            | by destruct (Hout (HasFinalizer_elem _ Pf))
            | split_and!; [done|done|intros Hpol; first [done | set_solver]] ]
    | intros Hd [c Hc'];
      first [ congruence | done | by apply HasFinalizer_elem | by destruct Pd ] ].
Qed.

Lemma finalizer_given_up_only_after_cleanup_witness :
  let i := deletingRecord corev1alpha1.ReclaimDelete "gke-uid-1" in
  match Reconcile (newReconciler (okEnv i "RUNNING")) sampleRequest [] with
  | (Some i', r, _, l) => ∀ f, f ≠ finalizer -> f ∈ Finalizers i' ↔ f ∈ Finalizers i
  | _ => False
  end.
Proof.
  intros i.
  pose proof (finalizer_given_up_only_after_cleanup (okEnv i "RUNNING") sampleRequest i
                eq_refl) as H.
  destruct (Reconcile _ _ _) as [[[[i'|] r] uerr] l]; [|done].
  by destruct H as (H & _).
Defined.

(** X8: the external resource is created and read only for a record whose
    finalizer is already stored: whenever an invocation reaches an external
    create or get, the record the API server holds at that moment (the
    fetched record, or the record of the last Update that succeeded before
    the call) carries the engine's finalizer. *)
Theorem external_resource_needs_stored_finalizer
    (e : Env) (request : string * string) (i : GKECluster) (n : nat) (ev : Event) :
  kube_Get e request.1 request.2 = inr i ->
  (Reconcile (newReconciler e) request []).2 !! n = Some ev ->
  (isCreateCluster ev || isGetCluster ev) = true ->
  finalizer ∈ Finalizers (persisted i (take n (Reconcile (newReconciler e) request []).2)).
Proof.
  intros Hg. rewrite (Reconcile_fetched (newReconciler e) request i [] Hg). cbv zeta.
  cbn [app snd].
  fold (log (reconcileInstance (newReconciler e) i [EvGet request.1 request.2])).
  pose proof (finalizedRecord_elem i) as Hfin.
  paths e i [EvGet request.1 request.2].
  all: intros Hn Hev;
    do 7 (try (destruct n as [|n]; [cbn in Hn; simplify_eq; try discriminate Hev|]));
    try (by cbn in Hn);
    cbn; first [done | by apply HasFinalizer_elem].
Qed.

Lemma external_resource_needs_stored_finalizer_witness :
  let l := (Reconcile (newReconciler (okEnv freshRecord "RUNNING")) sampleRequest []).2 in
  l !! 3 = Some (EvCreateCluster "gke-uid-1" (Spec freshRecord) None) ∧
  (finalizer ∉ Finalizers freshRecord) ∧
  (finalizer ∈ Finalizers (persisted freshRecord (take 3 l))).
Proof.
  intros l. split; [reflexivity|]. split; [by vm_compute|].
  exact (external_resource_needs_stored_finalizer (okEnv freshRecord "RUNNING") sampleRequest
           freshRecord 3 _ eq_refl eq_refl eq_refl).
Defined.

(** ** The error and the result that come back *)

(** X9: when reconcile returns no error, the record it hands back is the
    record the API server holds: the last Update that succeeded stored it, or
    no Update was made and it is the fetched record. *)
Theorem no_error_means_stored (e : Env) (request : string * string) (i : GKECluster) :
  kube_Get e request.1 request.2 = inr i ->
  match Reconcile (newReconciler e) request [] with
  | (Some i', _, uerr, l) => uerr = None -> persisted i l = i'
  | _ => False
  end.
Proof.
  intros Hg. rewrite (Reconcile_fetched (newReconciler e) request i [] Hg). cbv zeta.
  cbn [app].
  paths e i [EvGet request.1 request.2];
    intros Hu; try discriminate Hu; cbn in Hu |- *; by rewrite ?Hu.
Qed.

Lemma no_error_means_stored_witness :
  match Reconcile (newReconciler (okEnv freshRecord "RUNNING")) sampleRequest [] with
  | (Some i', _, uerr, l) => uerr = None ∧ persisted freshRecord l = i'
  | _ => False
  end.
Proof.
  pose proof (no_error_means_stored (okEnv freshRecord "RUNNING") sampleRequest freshRecord
                eq_refl) as H.
  destruct (Reconcile _ _ _) as [[[[i'|] r] uerr] l] eqn:E; [|done].
  assert (Hu : uerr = None) by (by vm_compute in E; simplify_eq).
  split; [exact Hu|exact (H Hu)].
Defined.

(** X10: the only error reconcile returns for a fetched record is the error
    of an Update: if an error comes back, the last thing the invocation did
    was to submit the record it hands back, and that Update answered this
    error.  A failure of the connect step, of the external resource or of the
    secret store never comes back as the error. *)
Theorem returned_error_is_update_error (e : Env) (request : string * string) (i : GKECluster) :
  kube_Get e request.1 request.2 = inr i ->
  match Reconcile (newReconciler e) request [] with
  | (Some i', _, uerr, l) => ∀ x, uerr = Some x -> last l = Some (EvUpdate i' (Some x))
  | _ => False
  end.
Proof.
  intros Hg. rewrite (Reconcile_fetched (newReconciler e) request i [] Hg). cbv zeta.
  cbn [app].
  paths e i [EvGet request.1 request.2]; intros y Hy; try discriminate Hy;
    cbn in Hy |- *; first [by rewrite Hy | by simplify_eq].
Qed.

Lemma returned_error_is_update_error_witness :
  match Reconcile (newReconciler (readOnlyEnv freshRecord)) sampleRequest [] with
  | (Some i', _, uerr, l) => uerr = Some errOther ∧ last l = Some (EvUpdate i' (Some errOther))
  | _ => False
  end.
Proof.
  pose proof (returned_error_is_update_error (readOnlyEnv freshRecord) sampleRequest
                freshRecord eq_refl) as H.
  destruct (Reconcile _ _ _) as [[[[i'|] r] uerr] l] eqn:E; [|done].
  assert (Hu : uerr = Some errOther) by (by vm_compute in E; simplify_eq).
  split; [exact Hu|exact (H errOther Hu)].
Defined.

Lemma AlreadyExists_not_BadRequest x : gcp.IsAlreadyExists x = true -> gcp.IsBadRequest x = false.
Proof. unfold gcp.IsAlreadyExists, gcp.IsBadRequest. by destruct (Kind x). Qed.

Ltac find_in_list :=
  solve [repeat first [apply list_elem_of_here | apply list_elem_of_further]].

(** X11: no return path asks for a delayed requeue, and exactly three of them
    ask for no requeue at all: the external create answered BadRequest, the
    connection secret was published (the record becomes Ready), or deletion is
    requested, the client is connected and no external delete failed (the
    finalizer is released).  Every other path sets [Requeue]. *)
Theorem requeue_decision (e : Env) (request : string * string) (i : GKECluster) :
  kube_Get e request.1 request.2 = inr i ->
  match Reconcile (newReconciler e) request [] with
  | (Some i', r, _, l) =>
      reconcile.RequeueAfter r = 0%Z ∧
      (reconcile.Requeue r = false ↔
         (∃ n s x, EvCreateCluster n s (Some x) ∈ l ∧ gcp.IsBadRequest x = true) ∨
         (∃ s, EvApplySecret s None ∈ l) ∨
         (DeletionTimestamp i ≠ None ∧ (∃ c, connected e i = inr c) ∧
          ∀ z n x, EvDeleteCluster z n (Some x) ∉ l))
  | _ => False
  end.
Proof.
  intros Hg. rewrite (Reconcile_fetched (newReconciler e) request i [] Hg). cbv zeta.
  cbn [app].
  paths e i [EvGet request.1 request.2].
  all: split; [reflexivity|]; split;
    [ intros Hq; try discriminate Hq;
      first [ left; eexists _, _, _; split; [find_in_list|done]
            | right; left; eexists; find_in_list
            | right; right; split_and!;
              [done|by eexists|intros z n x Hin; by in_list Hin] ]
    | intros [(n & s & x & Hin & Hbr)|[(s & Hin)|(Hd & (c & Hc) & Hno)]];
      try reflexivity; exfalso;
      first [ by in_list Hin
            | destruct pa as [?|]; in_list Hin;
              apply AlreadyExists_not_BadRequest in Px; congruence
            | in_list Hin; congruence
            | congruence
            | by destruct Hd
            | eapply Hno; find_in_list ] ].
Qed.

Lemma requeue_decision_witness :
  match Reconcile (newReconciler (okEnv creatingRecord "RUNNING")) sampleRequest [] with
  | (Some i', r, _, l) => reconcile.Requeue r = false ∧ reconcile.RequeueAfter r = 0%Z
  | _ => False
  end.
Proof.
  pose proof (requeue_decision (okEnv creatingRecord "RUNNING") sampleRequest creatingRecord
                eq_refl) as H.
  destruct (Reconcile _ _ _) as [[[[i'|] r] uerr] l] eqn:E; [|done].
  destruct H as (Ha & _). split; [|exact Ha].
  vm_compute in E. by simplify_eq.
Defined.

(** ** The delete branch and the reclaim policy *)

(** X12: the delete branch compares the reclaim policy with Delete only.
    Under every other policy, the empty one and a misspelt one included, it
    behaves as under Retain: no external call, the engine's finalizer
    removed, every condition unset, one Update, no requeue; the external
    resource stays. *)
Theorem delete_branch_other_policy (e : Env) (i : GKECluster) (client : gke.Client) (l : Log) :
  ReclaimPolicy (Spec i) ≠ corev1alpha1.ReclaimDelete ->
  let out := _delete e i client l in
  log out = l ++ [EvUpdate (inst out) (err out)] ∧
  err out = kube_Update e (countUpdates l) (inst out) ∧
  Finalizers (inst out) = (Finalizers i ∖ {[ finalizer ]}) ∧
  NoneActive (conds (inst out)) ∧
  ClusterName (Status (inst out)) = ClusterName (Status i) ∧
  res out = result.
Proof.
  intros Hp. cbv zeta. rewrite delete_eq. cbv zeta.
  rewrite bool_decide_eq_false_2 by done.
  unfold finish, inst, res, err, log. cbn [fst snd].
  split_and!; try reflexivity. apply releasedRecord_NoneActive.
Qed.

Lemma delete_branch_other_policy_witness :
  let i := deletingRecord "" "gke-uid-1" in
  let out := _delete (okEnv i "RUNNING") i (okClient "RUNNING") [] in
  ReclaimPolicy (Spec i) ≠ corev1alpha1.ReclaimDelete ∧
  countDeletes (log out) = 0 ∧
  Finalizers (inst out) = (Finalizers i ∖ {[ finalizer ]}).
Proof.
  intros i out. split; [done|].
  pose proof (delete_branch_other_policy (okEnv i "RUNNING") i (okClient "RUNNING") []
                ltac:(done)) as (Hl & _ & Hf & _).
  split; [|exact Hf]. fold out in Hl. by rewrite Hl.
Defined.

(** ** Reconciling again *)

Lemma connected_ext e a b :
  Namespace a = Namespace b -> Spec a = Spec b -> connected e a = connected e b.
Proof. intros Hn Hs. unfold connected, _connect. by rewrite Hn, Hs. Qed.

Lemma clusterNameOf_nonempty i : clusterNameOf i ≠ "".
Proof. unfold clusterNameOf, clusterNamePrefix. cbn. discriminate. Qed.

(** The first invocation on a record without external name, in a world where
    the creation counts as done and every Update succeeds. *)
Lemma first_reconcile_creates e i client l f :
  connected e i = inr client ->
  DeletionTimestamp i = None ->
  ClusterName (Status i) = "" ->
  match gke.CreateCluster client (clusterNameOf i) (Spec i) with
  | None => True
  | Some x => gcp.IsAlreadyExists x = true
  end ->
  (∀ n k, kube_Update e n k = None) ->
  let out := reconcileInstance (newReconciler e) i l in
  ∃ k, (k = i ∨ k = finalizedRecord i) ∧ finalizer ∈ Finalizers k ∧
       inst out = createdRecord k ∧ res out = resultRequeue ∧ err out = None ∧
       persisted f (log out) = createdRecord k ∧
       countCreates (log out) = countCreates l + 1.
Proof.
  intros Hc Hd Hn Hx Hu. cbv zeta. rewrite reconcile_eq. cbv zeta. rewrite Hc, Hd.
  rewrite bool_decide_eq_false_2 by (intros H; by apply H).
  assert (Hx' : ∀ k, clusterNameOf k = clusterNameOf i -> Spec k = Spec i ->
            ∀ x, gke.CreateCluster client (clusterNameOf k) (Spec k) = Some x ->
                 gcp.IsAlreadyExists x = true).
  { intros k -> -> x Hk. by rewrite Hk in Hx. }
  destruct (util.HasFinalizer (Finalizers i) finalizer) eqn:Hf.
  - exists i. unfold liveBranch. rewrite bool_decide_eq_true_2 by done.
    rewrite (create_absorbed_eq e i client _ (Hx' i eq_refl eq_refl)).
    rewrite finish_persisted, finish_countCreates, countCreates_snoc_create.
    unfold finish, inst, res, err, log. cbn [fst snd]. rewrite Hu.
    rewrite countCreates_snoc_other by done.
    split_and!; first [done | by left | by apply HasFinalizer_elem | lia].
  - rewrite Hu. exists (finalizedRecord i). unfold liveBranch.
    rewrite bool_decide_eq_true_2 by done.
    rewrite (create_absorbed_eq e (finalizedRecord i) client _
               (Hx' (finalizedRecord i) eq_refl eq_refl)).
    rewrite finish_persisted, finish_countCreates, countCreates_snoc_create.
    unfold finish, inst, res, err, log. cbn [fst snd]. rewrite Hu.
    rewrite !countCreates_snoc_other by done.
    split_and!; first [done | by right | apply finalizedRecord_elem | lia].
Qed.

(** X13: creating, then reading.  A record without external name is
    reconciled in a world where the creation counts as done (the external
    create answers no error or AlreadyExists) and every Update succeeds: the
    record that is stored afterwards carries the finalizer, the name derived
    from the UID and Creating as its only active condition, and a requeue is
    asked for.  The next invocation, on that stored record, makes no create
    call and reads the cluster under exactly the zone and name the create
    used; while the cluster is not running the record stays as it is and a
    requeue is asked for again; once it is running and the secret is
    published, Ready is the only active condition, name and finalizer are
    kept, and no requeue is asked for. *)
Theorem create_then_sync
    (e : Env) (request : string * string) (i : GKECluster) (client : gke.Client)
    (cluster : container.Cluster) :
  kube_Get e request.1 request.2 = inr i ->
  connected e i = inr client ->
  DeletionTimestamp i = None ->
  ClusterName (Status i) = "" ->
  match gke.CreateCluster client (clusterNameOf i) (Spec i) with
  | None => True
  | Some x => gcp.IsAlreadyExists x = true
  end ->
  (∀ n k, kube_Update e n k = None) ->
  gke.GetCluster client (Zone (Spec i)) (clusterNameOf i) = inr cluster ->
  let fetch := [EvGet request.1 request.2] in
  let out1 := reconcileInstance (newReconciler e) i fetch in
  let i1 := persisted i (log out1) in
  let out2 := reconcileInstance (newReconciler e) i1 fetch in
  Reconcile (newReconciler e) request [] = (Some (inst out1), res out1, err out1, log out1) ∧
  (inst out1 = i1 ∧ res out1 = resultRequeue ∧ err out1 = None ∧ countCreates (log out1) = 1 ∧
   finalizer ∈ Finalizers i1 ∧ ClusterName (Status i1) = clusterNameOf i ∧
   OnlyActive corev1alpha1.Creating (conds i1)) ∧
  (countCreates (log out2) = 0 ∧
   log out2 !! 2 = Some (EvGetCluster (Zone (Spec i)) (clusterNameOf i) (inr cluster))) ∧
  (container.Status cluster ≠ ClusterStateRunning ->
   inst out2 = i1 ∧ res out2 = resultRequeue ∧ err out2 = None ∧ countUpdates (log out2) = 0) ∧
  (container.Status cluster = ClusterStateRunning ->
   ApplySecret e (connectionSecret i1 cluster) = None ->
   OnlyActive corev1alpha1.Ready (conds (inst out2)) ∧
   res out2 = result ∧ err out2 = None ∧
   ClusterName (Status (inst out2)) = clusterNameOf i ∧
   finalizer ∈ Finalizers (inst out2) ∧
   persisted i1 (log out2) = inst out2).
Proof.
  intros Hg Hc Hd Hn Hx Hu Hget. cbv zeta.
  destruct (first_reconcile_creates e i client [EvGet request.1 request.2] i Hc Hd Hn Hx Hu)
    as (k & Hk & Hfin & Hi1 & Hr1 & He1 & Hp1 & Hn1).
  cbv zeta in Hi1, Hr1, He1, Hp1, Hn1.
  set (out1 := reconcileInstance (newReconciler e) i [EvGet request.1 request.2]) in *.
  rewrite Hp1.
  assert (Hid : Namespace k = Namespace i ∧ Spec k = Spec i ∧ UID k = UID i ∧
                DeletionTimestamp k = DeletionTimestamp i).
  { by destruct Hk as [-> | ->]. }
  destruct Hid as (Hkn & Hks & Hku & Hkd).
  assert (Hname : clusterNameOf k = clusterNameOf i) by (unfold clusterNameOf; by rewrite Hku).
  split; [by apply (Reconcile_fetched (newReconciler e) request i [])|].
  split.
  { split_and!;
      first [done | exact Hfin | exact Hname | apply createdRecord_OnlyActive | lia]. }
  (* the second invocation *)
  assert (Hc2 : connected e (createdRecord k) = inr client).
  { rewrite <- Hc. apply connected_ext; cbn; congruence. }
  assert (H2 : reconcileInstance (newReconciler e) (createdRecord k) [EvGet request.1 request.2]
               = _sync e (createdRecord k) client
                   [EvGet request.1 request.2;
                    EvGetProvider (Namespace i) (ProviderRef (Spec i))]).
  { rewrite reconcile_eq. cbv zeta. rewrite Hc2.
    rewrite bool_decide_eq_false_2 by (cbn; rewrite Hkd, Hd; intros H; by apply H).
    replace (util.HasFinalizer (Finalizers (createdRecord k)) finalizer) with true
      by (symmetry; by apply bool_decide_eq_true_2).
    unfold liveBranch. rewrite bool_decide_eq_false_2 by (cbn; apply clusterNameOf_nonempty).
    cbn. by rewrite Hkn, Hks. }
  rewrite H2, sync_eq. cbv zeta.
  replace (Zone (Spec (createdRecord k))) with (Zone (Spec i)) by (cbn; by rewrite Hks).
  replace (ClusterName (Status (createdRecord k))) with (clusterNameOf i) by (by rewrite <- Hname).
  rewrite Hget.
  destruct (bool_decide (container.Status cluster ≠ ClusterStateRunning)) eqn:Hs; decided.
  - split_and!; try done.
  - assert (Hrun : container.Status cluster = ClusterStateRunning) by (by apply dec_stable).
    destruct (ApplySecret e (connectionSecret (createdRecord k) cluster)) as [x|] eqn:Ha.
    + rewrite finish_countCreates. split_and!; try done.
    + rewrite finish_countCreates, finish_persisted.
      unfold finish, inst, res, err, log. cbn [fst snd]. rewrite Hu.
      split_and!; try done.
      intros _ _. split_and!; try done.
      * apply readyRecord_OnlyActive.
Qed.

Lemma create_then_sync_witness :
  let e := okEnv freshRecord "RUNNING" in
  let fetch := [EvGet "default" "demo"] in
  let out1 := reconcileInstance (newReconciler e) freshRecord fetch in
  let i1 := persisted freshRecord (log out1) in
  let out2 := reconcileInstance (newReconciler e) i1 fetch in
  ClusterName (Status i1) = "gke-uid-1" ∧
  OnlyActive corev1alpha1.Ready (conds (inst out2)) ∧
  res out2 = result.
Proof.
  intros e fetch out1 i1 out2.
  pose proof (create_then_sync e sampleRequest freshRecord (okClient "RUNNING")
                (sampleCluster "RUNNING") eq_refl eq_refl eq_refl eq_refl I
                (fun _ _ => eq_refl) eq_refl)
    as (_ & (_ & _ & _ & _ & _ & Hname & _) & _ & _ & Hrun).
  destruct (Hrun eq_refl eq_refl) as (Ho & Hr & _).
  split_and!; [exact Hname|exact Ho|exact Hr].
Defined.

(** X14: creating, then deleting.  A record without external name is
    reconciled in a world where the creation counts as done and every Update
    succeeds; later the deletion of the stored record is requested.  With
    reclaim policy Delete the next invocation calls the external delete with
    exactly the zone and name the create used; when that call returns no
    error the engine's finalizer is gone from the stored record, every
    condition is unset and no requeue is asked for. *)
Theorem create_then_delete
    (e : Env) (request : string * string) (i : GKECluster) (client : gke.Client) (t : Z) :
  kube_Get e request.1 request.2 = inr i ->
  connected e i = inr client ->
  DeletionTimestamp i = None ->
  ClusterName (Status i) = "" ->
  match gke.CreateCluster client (clusterNameOf i) (Spec i) with
  | None => True
  | Some x => gcp.IsAlreadyExists x = true
  end ->
  (∀ n k, kube_Update e n k = None) ->
  ReclaimPolicy (Spec i) = corev1alpha1.ReclaimDelete ->
  gke.DeleteCluster client (Zone (Spec i)) (clusterNameOf i) = None ->
  let fetch := [EvGet request.1 request.2] in
  let out1 := reconcileInstance (newReconciler e) i fetch in
  let doomed := withDeletion t (persisted i (log out1)) in
  let out2 := reconcileInstance (newReconciler e) doomed fetch in
  Reconcile (newReconciler e) request [] = (Some (inst out1), res out1, err out1, log out1) ∧
  log out1 !! (length (log out1) - 2) =
    Some (EvCreateCluster (clusterNameOf i) (Spec i)
            (gke.CreateCluster client (clusterNameOf i) (Spec i))) ∧
  log out2 =
    [EvGet request.1 request.2; EvGetProvider (Namespace i) (ProviderRef (Spec i));
     EvDeleteCluster (Zone (Spec i)) (clusterNameOf i) None;
     EvUpdate (inst out2) None] ∧
  persisted doomed (log out2) = inst out2 ∧
  (finalizer ∉ Finalizers (inst out2)) ∧
  NoneActive (conds (inst out2)) ∧
  res out2 = result ∧ err out2 = None.
Proof.
  intros Hg Hc Hd Hn Hx Hu Hp Hdel. cbv zeta.
  destruct (first_reconcile_creates e i client [EvGet request.1 request.2] i Hc Hd Hn Hx Hu)
    as (k & Hk & Hfin & Hi1 & Hr1 & He1 & Hp1 & Hn1).
  cbv zeta in Hi1, Hr1, He1, Hp1, Hn1.
  assert (Hlog1 : log (reconcileInstance (newReconciler e) i [EvGet request.1 request.2])
                  !! (length (log (reconcileInstance (newReconciler e) i
                                     [EvGet request.1 request.2])) - 2) =
                  Some (EvCreateCluster (clusterNameOf i) (Spec i)
                          (gke.CreateCluster client (clusterNameOf i) (Spec i)))).
  { clear Hi1 Hr1 He1 Hp1 Hn1.
    rewrite reconcile_eq. cbv zeta. rewrite Hc, Hd.
    rewrite bool_decide_eq_false_2 by (intros H; by apply H).
    assert (Hx' : ∀ x, gke.CreateCluster client (clusterNameOf i) (Spec i) = Some x ->
                       gcp.IsAlreadyExists x = true).
    { intros x Hk'. by rewrite Hk' in Hx. }
    destruct (util.HasFinalizer (Finalizers i) finalizer); [|rewrite Hu];
      unfold liveBranch; rewrite bool_decide_eq_true_2 by done;
      rewrite create_absorbed_eq by exact Hx'; reflexivity. }
  rewrite Hp1.
  assert (Hid : Namespace k = Namespace i ∧ Spec k = Spec i ∧ UID k = UID i).
  { by destruct Hk as [-> | ->]. }
  destruct Hid as (Hkn & Hks & Hku).
  assert (Hname : clusterNameOf k = clusterNameOf i) by (unfold clusterNameOf; by rewrite Hku).
  split; [by apply (Reconcile_fetched (newReconciler e) request i [])|].
  split; [exact Hlog1|].
  assert (Hc2 : connected e (withDeletion t (createdRecord k)) = inr client).
  { rewrite <- Hc. apply connected_ext; cbn; congruence. }
  rewrite reconcile_eq. cbv zeta. rewrite Hc2.
  rewrite bool_decide_eq_true_2 by done.
  rewrite delete_eq. cbv zeta.
  rewrite bool_decide_eq_true_2 by (cbn; by rewrite Hks).
  replace (Zone (Spec (withDeletion t (createdRecord k)))) with (Zone (Spec i))
    by (cbn; by rewrite Hks).
  replace (ClusterName (Status (withDeletion t (createdRecord k)))) with (clusterNameOf i)
    by (by rewrite <- Hname).
  rewrite Hdel, finish_persisted.
  unfold finish, inst, res, err, log. cbn [fst snd]. rewrite Hu.
  split_and!; try done.
  - cbn. by rewrite Hkn, Hks.
  - apply releasedRecord_no_finalizer.
  - apply releasedRecord_NoneActive.
Qed.

Lemma create_then_delete_witness :
  let e := okEnv freshRecord "RUNNING" in
  let fetch := [EvGet "default" "demo"] in
  let out1 := reconcileInstance (newReconciler e) freshRecord fetch in
  let doomed := withDeletion 7 (persisted freshRecord (log out1)) in
  let out2 := reconcileInstance (newReconciler e) doomed fetch in
  log out2 !! 2 = Some (EvDeleteCluster "us-central1-a" "gke-uid-1" None) ∧
  finalizer ∉ Finalizers (inst out2).
Proof.
  intros e fetch out1 doomed out2.
  pose proof (create_then_delete e sampleRequest freshRecord (okClient "RUNNING") 7
                eq_refl eq_refl eq_refl eq_refl I (fun _ _ => eq_refl) eq_refl eq_refl)
    as (_ & _ & Hl & _ & Hf & _).
  split; [|exact Hf]. exact (f_equal (fun l => l !! 2) Hl).
Defined.

(** Unsetting and setting the same condition twice is the same as doing it
    once. *)
Lemma filter_unset_filter_unset t (s : corev1alpha1.ConditionedStatus) :
  filter (fun x => corev1alpha1.CType x ≠ t)
    (corev1alpha1.UnsetAllConditions
       (filter (fun x => corev1alpha1.CType x ≠ t) (corev1alpha1.UnsetAllConditions s))) =
  filter (fun x => corev1alpha1.CType x ≠ t) (corev1alpha1.UnsetAllConditions s).
Proof.
  unfold corev1alpha1.UnsetAllConditions.
  induction s as [|x s IH]; [done|].
  cbn [map]. rewrite filter_cons. cbn [corev1alpha1.CType].
  destruct (decide (corev1alpha1.CType x ≠ t)) as [Hx|Hx]; [|exact IH].
  cbn [map]. rewrite filter_cons. cbn [corev1alpha1.CType corev1alpha1.Reason
                                        corev1alpha1.Message].
  destruct (decide (corev1alpha1.CType x ≠ t)); [|done]. by rewrite IH.
Qed.

Lemma unset_then_set_twice c (s : corev1alpha1.ConditionedStatus) :
  corev1alpha1.SetCondition c
    (corev1alpha1.UnsetAllConditions
       (corev1alpha1.SetCondition c (corev1alpha1.UnsetAllConditions s))) =
  corev1alpha1.SetCondition c (corev1alpha1.UnsetAllConditions s).
Proof.
  unfold corev1alpha1.SetCondition. f_equal.
  unfold corev1alpha1.UnsetAllConditions at 1. rewrite map_app, filter_app.
  fold (corev1alpha1.UnsetAllConditions
          (filter (fun x => corev1alpha1.CType x ≠ corev1alpha1.CType c)
             (corev1alpha1.UnsetAllConditions s))).
  rewrite filter_unset_filter_unset. cbn [map]. rewrite filter_cons, filter_nil.
  cbn [corev1alpha1.CType].
  destruct (decide (corev1alpha1.CType c ≠ corev1alpha1.CType c)); [done|].
  apply app_nil_r.
Qed.

Lemma readyRecord_twice i : readyRecord (readyRecord i) = readyRecord i.
Proof.
  unfold readyRecord, withConditions, corev1alpha1.SetReady. cbn.
  by rewrite unset_then_set_twice.
Qed.

(** X15: Ready is a steady state.  A record with the finalizer and an
    external name, whose cluster is running, is reconciled in a world where
    the secret can be published and every Update succeeds: the stored record
    has Ready as its only active condition.  Reconciling the stored record
    again in the same world repeats exactly the same calls, hands back and
    stores the very same record, and asks for no requeue. *)
Theorem ready_is_a_steady_state
    (e : Env) (request : string * string) (i : GKECluster) (client : gke.Client)
    (cluster : container.Cluster) :
  kube_Get e request.1 request.2 = inr i ->
  connected e i = inr client ->
  DeletionTimestamp i = None ->
  finalizer ∈ Finalizers i ->
  ClusterName (Status i) ≠ "" ->
  gke.GetCluster client (Zone (Spec i)) (ClusterName (Status i)) = inr cluster ->
  container.Status cluster = ClusterStateRunning ->
  ApplySecret e (connectionSecret i cluster) = None ->
  (∀ n k, kube_Update e n k = None) ->
  let fetch := [EvGet request.1 request.2] in
  let out1 := reconcileInstance (newReconciler e) i fetch in
  let i1 := persisted i (log out1) in
  let out2 := reconcileInstance (newReconciler e) i1 fetch in
  Reconcile (newReconciler e) request [] = (Some (inst out1), res out1, err out1, log out1) ∧
  inst out1 = i1 ∧
  OnlyActive corev1alpha1.Ready (conds i1) ∧
  inst out2 = i1 ∧
  persisted i1 (log out2) = i1 ∧
  log out2 = log out1 ∧
  res out2 = result ∧ err out2 = None.
Proof.
  intros Hg Hc Hd Hfin Hn Hget Hrun Ha Hu. cbv zeta.
  assert (Hsync : ∀ k, Namespace k = Namespace i -> Name k = Name i -> UID k = UID i ->
            Spec k = Spec i -> DeletionTimestamp k = None ->
            Finalizers k = Finalizers i -> ClusterName (Status k) = ClusterName (Status i) ->
            reconcileInstance (newReconciler e) k [EvGet request.1 request.2] =
              (readyRecord k, result, None,
               [EvGet request.1 request.2; EvGetProvider (Namespace i) (ProviderRef (Spec i));
                EvGetCluster (Zone (Spec i)) (ClusterName (Status i)) (inr cluster);
                EvApplySecret (connectionSecret i cluster) None;
                EvUpdate (readyRecord k) None])).
  { intros k Hkn Hkm Hku Hks Hkd Hkf Hkc.
    assert (Hck : connected e k = inr client).
    { rewrite <- Hc. by apply connected_ext. }
    assert (Hsec : connectionSecret k cluster = connectionSecret i cluster).
    { unfold connectionSecret, ConnectionSecret. cbn. by rewrite Hkn, Hkm, Hku. }
    rewrite reconcile_eq. cbv zeta. rewrite Hck, Hkd.
    rewrite bool_decide_eq_false_2 by (intros H; by apply H).
    replace (util.HasFinalizer (Finalizers k) finalizer) with true
      by (symmetry; apply bool_decide_eq_true_2; by rewrite Hkf).
    unfold liveBranch. rewrite bool_decide_eq_false_2 by (by rewrite Hkc).
    rewrite sync_eq. cbv zeta. rewrite Hks, Hkc, Hget.
    rewrite bool_decide_eq_false_2 by (intros H; by apply H).
    rewrite Hsec, Ha. unfold finish. rewrite Hu. cbn [app]. by rewrite ?Hkn, ?Hks. }
  rewrite (Hsync i) by done.
  unfold inst, res, err, log. cbn [fst snd persisted].
  rewrite (Hsync (readyRecord i)) by done.
  cbn [fst snd persisted]. rewrite readyRecord_twice.
  split_and!; try done.
  - rewrite (Reconcile_fetched (newReconciler e) request i [] Hg). cbv zeta. cbn [app].
    by rewrite (Hsync i).
  - apply readyRecord_OnlyActive.
Qed.

Lemma ready_is_a_steady_state_witness :
  let e := okEnv creatingRecord "RUNNING" in
  let fetch := [EvGet "default" "demo"] in
  let out1 := reconcileInstance (newReconciler e) creatingRecord fetch in
  let i1 := persisted creatingRecord (log out1) in
  let out2 := reconcileInstance (newReconciler e) i1 fetch in
  finalizer ∈ Finalizers creatingRecord ∧ inst out2 = i1 ∧ log out2 = log out1.
Proof.
  intros e fetch out1 i1 out2.
  assert (Hf : finalizer ∈ Finalizers creatingRecord) by (by vm_compute).
  split; [exact Hf|].
  pose proof (ready_is_a_steady_state e sampleRequest creatingRecord (okClient "RUNNING")
                (sampleCluster "RUNNING") eq_refl eq_refl eq_refl Hf ltac:(done) eq_refl
                eq_refl eq_refl (fun _ _ => eq_refl))
    as (_ & _ & _ & Hi & _ & Hl & _).
  split; [exact Hi|exact Hl].
Defined.

(** * Registering the controllers *)

Lemma FailFast_cases {R} (l : list (wiring.WEvent R)) :
  match l with
  | [] => True
  | [_] => True
  | [a; _] => wiring.answer a = None
  | [a; b; _] => wiring.answer a = None ∧ wiring.answer b = None
  | _ => False
  end -> wiring.FailFast l.
Proof.
  intros H n ev Hn Hlt.
  destruct l as [|a [|b [|c [|d l]]]]; cbn in H, Hlt; try done; try lia.
  - destruct n as [|[|n]]; cbn in Hn; simplify_eq; first [done | lia].
  - destruct H as (Ha & Hb).
    destruct n as [|[|[|n]]]; cbn in Hn; simplify_eq; first [done | lia].
Qed.

(** X16: registering the GKE controller stops at the first failure and hands
    that error back unchanged: the watch is registered only once the
    controller exists.  When both steps succeed the controller, named
    controllerName and driven by the given reconciler, watches the GKECluster
    records themselves and nothing else. *)
Theorem add_stops_at_first_failure (mgr : wiring.Manager) (r : Reconciler) :
  let out := wiring.add mgr r [] in
  wiring.FailFast out.2 ∧
  (∃ ev, last out.2 = Some ev ∧ out.1 = wiring.answer ev) ∧
  head out.2 = Some (wiring.WNew controllerName r (wiring.New mgr controllerName)) ∧
  (out.1 = None ->
   out.2 = [wiring.WNew controllerName r None;
            wiring.WWatch controllerName wiring.KGKECluster wiring.EnqueueRequestForObject
              None None]).
Proof.
  cbv zeta. unfold wiring.add, wiring.controllerNew, wiring.controllerWatch,
    mbind, wiring.W_bind, mret, wiring.W_ret. cbv zeta.
  destruct (wiring.New mgr controllerName) as [x|] eqn:Hn; cbn;
    [|destruct (wiring.Watch mgr controllerName _ _ _) as [y|] eqn:Hw; cbn];
    (split_and!; [by apply FailFast_cases|by eexists|done|done]).
Qed.

Section DatabaseControllers.

Variable controllerName : string.
Variable PostgreSQLInstanceKind MySQLInstanceKind : string.
Variable PostgreSQLInstanceGroupVersionKind MySQLInstanceGroupVersionKind : string.
Variable ResourceClassGroupVersionKind CloudsqlInstanceGroupVersionKind : string.
Variable CloudsqlInstanceKindAPIVersion : string.
Variable ToLower : string -> string.

(** X17: registering the CloudSQL instance controller stops at the first
    failure and hands that error back unchanged.  When all three steps
    succeed the controller watches the CloudsqlInstance records themselves
    and, after that, the secrets whose controlling owner is a
    CloudsqlInstance. *)
Theorem Add_stops_at_first_failure (mgr : wiring.Manager) :
  let out := wiring.Add controllerName mgr [] in
  wiring.FailFast out.2 ∧
  (∃ ev, last out.2 = Some ev ∧ out.1 = wiring.answer ev) ∧
  head out.2 =
    Some (wiring.WNew controllerName wiring.InstanceReconciler
            (wiring.New mgr controllerName)) ∧
  (out.1 = None ->
   out.2 = [wiring.WNew controllerName wiring.InstanceReconciler None;
            wiring.WWatch controllerName wiring.KCloudsqlInstance
              wiring.EnqueueRequestForObject None None;
            wiring.WWatch controllerName wiring.KSecret
              (wiring.EnqueueRequestForOwner true wiring.KCloudsqlInstance) None None]).
Proof.
  cbv zeta. unfold wiring.Add, wiring.controllerNew, wiring.controllerWatch,
    mbind, wiring.W_bind, mret, wiring.W_ret. cbv zeta.
  destruct (wiring.New mgr controllerName) as [x|] eqn:Hn; cbn;
    [|destruct (wiring.Watch mgr controllerName wiring.KCloudsqlInstance _ _) as [y|] eqn:Hw;
      cbn;
      [|destruct (wiring.Watch mgr controllerName wiring.KSecret _ _) as [z|] eqn:Hs; cbn]];
    (split_and!; [by apply FailFast_cases|by eexists|done|done]).
Qed.

(** X18: registering a claim controller (PostgreSQL or MySQL) stops at the
    first failure, and the error that comes back is that step's error put
    behind a message: it keeps the class of the cause and its text ends with
    the text of the cause; it is nil exactly when the last step made
    succeeded.  When all three steps succeed, the controller, registered under
    the lower-cased name, watches the managed CloudsqlInstance records on
    behalf of their claim first and then the claims of its own kind that name
    the CloudSQL provisioner. *)
Theorem claim_controllers_wrap_the_cause (mgr : wiring.Manager) :
  let pg := wiring.AddPostgreSQLClaim controllerName PostgreSQLInstanceKind
              PostgreSQLInstanceGroupVersionKind ResourceClassGroupVersionKind
              CloudsqlInstanceGroupVersionKind CloudsqlInstanceKindAPIVersion ToLower mgr [] in
  let my := wiring.AddMySQLClaim controllerName MySQLInstanceKind
              MySQLInstanceGroupVersionKind ResourceClassGroupVersionKind
              CloudsqlInstanceGroupVersionKind CloudsqlInstanceKindAPIVersion ToLower mgr [] in
  let pgName := wiring.claimControllerName controllerName ToLower PostgreSQLInstanceKind in
  let myName := wiring.claimControllerName controllerName ToLower MySQLInstanceKind in
  (wiring.FailFast pg.2 ∧ wiring.WrapsLast pg ∧
   (pg.1 = None ->
    ∃ r, pg.2 =
      [wiring.WNew pgName r None;
       wiring.WWatch pgName wiring.KCloudsqlInstance wiring.EnqueueRequestForClaim None None;
       wiring.WWatch pgName wiring.KPostgreSQLInstance wiring.EnqueueRequestForObject
         (Some CloudsqlInstanceKindAPIVersion) None])) ∧
  (wiring.FailFast my.2 ∧ wiring.WrapsLast my ∧
   (my.1 = None ->
    ∃ r, my.2 =
      [wiring.WNew myName r None;
       wiring.WWatch myName wiring.KCloudsqlInstance wiring.EnqueueRequestForClaim None None;
       wiring.WWatch myName wiring.KMySQLInstance wiring.EnqueueRequestForObject
         (Some CloudsqlInstanceKindAPIVersion) None])).
Proof.
  cbv zeta. unfold wiring.AddPostgreSQLClaim, wiring.AddMySQLClaim, wiring.controllerNew,
    wiring.controllerWatch, wiring.WrapsLast, wiring.claimControllerName,
    mbind, wiring.W_bind, mret, wiring.W_ret. cbv zeta.
  split.
  - destruct (wiring.New mgr _) as [x|] eqn:Hn; cbn;
      [|destruct (wiring.Watch mgr _ wiring.KCloudsqlInstance _ _) as [y|] eqn:Hw; cbn;
        [|destruct (wiring.Watch mgr _ wiring.KPostgreSQLInstance _ _) as [z|] eqn:Hs; cbn]];
      (split_and!; [by apply FailFast_cases|eexists; split; [done|cbn; by eauto]|
                    first [done | intros _; by eexists]]).
  - destruct (wiring.New mgr _) as [x|] eqn:Hn; cbn;
      [|destruct (wiring.Watch mgr _ wiring.KCloudsqlInstance _ _) as [y|] eqn:Hw; cbn;
        [|destruct (wiring.Watch mgr _ wiring.KMySQLInstance _ _) as [z|] eqn:Hs; cbn]];
      (split_and!; [by apply FailFast_cases|eexists; split; [done|cbn; by eauto]|
                    first [done | intros _; by eexists]]).
Qed.

End DatabaseControllers.

(** * The mocked client of the reconcile test *)

Lemma wrapInt_small intSize z :
  (32 <= intSize)%Z -> (0 <= z < 2 ^ 31)%Z -> mock.wrapInt intSize z = z.
Proof.
  intros Hs Hz. unfold mock.wrapInt.
  assert (H31 : (2 ^ 31 <= 2 ^ (intSize - 1))%Z) by (apply Z.pow_le_mono_r; lia).
  assert (Hp : (2 ^ intSize = 2 * 2 ^ (intSize - 1))%Z).
  { replace intSize with (Z.succ (intSize - 1)) at 1 by lia. apply Z.pow_succ_r. lia. }
  rewrite Z.mod_small by lia. lia.
Qed.

Lemma MockGetInstance_count intSize c p i :
  (mock.MockGetInstance intSize c p i).2 = mock.wrapInt intSize (c + 1).
Proof.
  unfold mock.MockGetInstance. cbv zeta.
  destruct (_ <=? 1)%Z; [done|]. by destruct (_ && _).
Qed.

Lemma mock_calls_lookup intSize n c p i k :
  (32 <= intSize)%Z -> (0 <= c)%Z -> (c + Z.of_nat n < 2 ^ 31)%Z -> k < n ->
  mock.calls intSize n c p i !! k =
    Some (mock.MockGetInstance intSize (c + Z.of_nat k) p i).1.
Proof.
  intros Hs. revert c k. induction n as [|n IH]; intros c k Hc Hn Hk; [lia|].
  cbn [mock.calls].
  destruct (mock.MockGetInstance intSize c p i) as [a c'] eqn:E.
  assert (Hc' : c' = (c + 1)%Z).
  { rewrite <- (wrapInt_small intSize (c + 1)) by lia.
    by rewrite <- MockGetInstance_count with (p := p) (i := i), E. }
  destruct k as [|k]; cbn [lookup list_lookup].
  - by rewrite Z.add_0_r, E.
  - rewrite IH by lia. subst c'. do 3 f_equal. lia.
Qed.

(** X19: the mocked GetInstance of the reconcile test answers by call number
    alone: NotFound (404) on the first call, an instance in state
    PENDING_CREATE on the calls 2 to 9, and an instance in state RUNNABLE on
    the tenth call and on every later one, as long as the call counter (a Go
    int) has not wrapped around; so within that range the mock never goes
    back from RUNNABLE, and a reconciler has to poll through eight pending
    answers.  (Index [k] counts from zero: it is call number [k + 1].) *)
Theorem mock_answers_by_call_number (intSize : Z) (n k : nat) (project instance : string) :
  (32 <= intSize)%Z -> (Z.of_nat n < 2 ^ 31)%Z -> k < n ->
  mock.calls intSize n 0 project instance !! k =
    Some (if k =? 0 then inl mock.StatusNotFound
          else if k <? 9 then inr (mock.mkDatabaseInstance project instance "PENDING_CREATE")
          else inr (mock.mkDatabaseInstance project instance "RUNNABLE")).
Proof.
  intros Hs Hn Hk. rewrite mock_calls_lookup by (done || lia). f_equal.
  unfold mock.MockGetInstance. cbv zeta. rewrite wrapInt_small by lia. cbn [fst].
  destruct k as [|k]; [done|]. cbn [Nat.eqb].
  replace (0 + Z.of_nat (S k) + 1 <=? 1)%Z with false by (symmetry; apply Z.leb_gt; lia).
  replace (2 <=? 0 + Z.of_nat (S k) + 1)%Z with true by (symmetry; apply Z.leb_le; lia).
  cbn [andb].
  destruct (S k <? 9) eqn:E.
  - apply Nat.ltb_lt in E.
    replace (0 + Z.of_nat (S k) + 1 <? 10)%Z with true by (symmetry; apply Z.ltb_lt; lia).
    done.
  - apply Nat.ltb_ge in E.
    replace (0 + Z.of_nat (S k) + 1 <? 10)%Z with false by (symmetry; apply Z.ltb_ge; lia).
    done.
Qed.

Lemma mock_answers_by_call_number_witness :
  mock.calls 64 12 0 "project" "db" !! 9 =
    Some (inr (mock.mkDatabaseInstance "project" "db" "RUNNABLE")) ∧
  mock.calls 64 12 0 "project" "db" !! 8 =
    Some (inr (mock.mkDatabaseInstance "project" "db" "PENDING_CREATE")).
Proof.
  split.
  - exact (mock_answers_by_call_number 64 12 9 "project" "db" ltac:(lia) ltac:(lia) ltac:(lia)).
  - exact (mock_answers_by_call_number 64 12 8 "project" "db" ltac:(lia) ltac:(lia) ltac:(lia)).
Defined.
